(** * Multi-tenant telemetry pipeline: breach detector, provisioning, ingestion

    A shallow embedding of the Go services of the platform:

    - [Analysis]    : analysis-engine/main.go   (consumer loop, processMessage)
    - [Nats]        : the broker's subject matching and stream table, as far
                      as the services rely on them
    - [Persistence] : the data persistence service's stream declaration
    - [Management]  : the management service (createOrganizationHandler,
                      registerDeviceHandler, GenerateSASToken, startup)
    - [Ingestion]   : ingestion-service/main.go (ingestHandler)

    Conventions.  A [float64] that reaches a handler was produced by
    encoding/json, which yields finite values only; it is represented by the
    rational number it denotes, and Go's [>] and [<=] on it by the order on
    those rationals.  Remote calls (Redis, JetStream) take the outcome the
    environment gives them as an explicit argument; log lines are not
    modelled.  Time passes between two messages of the consumer loop: each
    message comes with the seconds elapsed since the one before, and the
    counter store ages by that much before the message is processed. *)

From Stdlib Require Import ZArith QArith Lia Ascii String.
From stdpp Require Import gmap strings list fin_maps.

Local Open Scope Z_scope.

(** ** float64 comparisons on finite values *)

Definition float64 : Type := Q.

(** [x > y] *)
Definition float_gt (x y : float64) : bool :=
  Qnum y * Zpos (Qden x) <? Qnum x * Zpos (Qden y).

(** [x <= y] *)
Definition float_le (x y : float64) : bool :=
  Qnum x * Zpos (Qden y) <=? Qnum y * Zpos (Qden x).

(** [x == 0], the zero value of the type *)
Definition float_is_zero (x : float64) : bool := Qnum x =? 0.

Definition float_of_Z (z : Z) : float64 := Qmake z 1.

(** ** analysis-engine/main.go *)

Module Analysis.

(** DataPoint represents a single sensor reading from a device. *)
Record DataPoint := {
  OrganizationID : string;
  DeviceID : string;
  SensorName : string;
  Value : float64;
  Timestamp : Z
}.

(** NotificationTrigger represents a condition that will trigger a
    notification. *)
Record NotificationTrigger := {
  TriggerOrganizationID : string;
  TriggerDeviceID : string;
  TriggerSensorName : string;
  Condition : string
}.

(** *** The counter store (Redis), as the detector uses it *)

Record Entry := { count : Z; ttl : option Z }.

Definition maxInt64 : Z := 9223372036854775807.

(** The circumstances under which one message is processed.  The outcome of
    the remote calls: [true] when the call returns without error.
    [publish_sent] tells whether the alert reached its subject although
    js.Publish returned an error (no stream acknowledged it, or the
    acknowledgment timed out): subscribers of the subject have then received
    it.  [elapsed] is the time in seconds since the previous message was
    processed. *)
Record Env := {
  incr_ok : bool;
  expire_ok : bool;
  publish_ok : bool;
  del_ok : bool;
  publish_sent : bool;
  elapsed : Z
}.

(** INCR: an absent key counts from zero; the idle window of a present key is
    kept.  Returns the new store and [Some] of the new value, or the store
    unchanged and [None] on error. *)
Definition Incr (ok : bool) (key : string) (r : gmap string Entry)
  : gmap string Entry * option Z :=
  if ok then
    match r !! key with
    | None => (<[key := {| count := 1; ttl := None |}]> r, Some 1)
    | Some e =>
        if count e =? maxInt64 then (r, None)
        else (<[key := {| count := count e + 1; ttl := ttl e |}]> r,
              Some (count e + 1))
    end
  else (r, None).

(** EXPIRE: sets the idle window of a present key, the seconds it has left
    to live. *)
Definition Expire (ok : bool) (key : string) (seconds : Z)
  (r : gmap string Entry) : gmap string Entry :=
  if ok then alter (fun e => {| count := count e; ttl := Some seconds |}) key r
  else r.

(** What [seconds] of time do to an entry: a key whose idle window has run
    out is gone, the window of another is shorter by that much, a key without
    a window stays. *)
Definition age (seconds : Z) (en : Entry) : option Entry :=
  match ttl en with
  | None => Some en
  | Some t =>
      if t <=? seconds then None
      else Some {| count := count en; ttl := Some (t - seconds) |}
  end.

(** The store after [seconds] without a command. *)
Definition idle (seconds : Z) (r : gmap string Entry) : gmap string Entry :=
  omap (age seconds) r.

(** DEL: unconditional delete-if-present. *)
Definition Del (ok : bool) (key : string) (r : gmap string Entry)
  : gmap string Entry :=
  if ok then delete key r else r.

(** *** Messages and the detector's world *)

(** A JetStream message, with its payload as json.Unmarshal sees it: [None]
    when the payload does not decode into a DataPoint. *)
Record Msg := { Subject : string; Data : option DataPoint }.

Inductive Reply := Ack | Nak.

(** [js] holds the alerts that have reached their subject, oldest first. *)
Record World := {
  rdb : gmap string Entry;
  js : list (string * NotificationTrigger)
}.

(** The world [seconds] later. *)
Definition pass (seconds : Z) (w : World) : World :=
  {| rdb := idle seconds (rdb w); js := js w |}.

Definition redisKey (dp : DataPoint) : string :=
  "breach:count:" +:+ DeviceID dp +:+ ":" +:+ SensorName dp.

Definition notificationSubject (dp : DataPoint) : string :=
  "notifications." +:+ OrganizationID dp +:+ "." +:+ DeviceID dp.

Definition triggerPayload (dp : DataPoint) : NotificationTrigger :=
  {| TriggerOrganizationID := OrganizationID dp;
     TriggerDeviceID := DeviceID dp;
     TriggerSensorName := SensorName dp;
     Condition := "Consecutive Temp Threshold Breach" |}.

Definition threshold : float64 := float_of_Z 80.

Definition processMessage (e : Env) (w : World) (msg : Msg) : World * Reply :=
  match Data msg with
  | None => (w, Nak)
  | Some dp =>
      if String.eqb (SensorName dp) "temp1" && float_gt (Value dp) threshold
      then
        let key := redisKey dp in
        let (r1, res) := Incr (incr_ok e) key (rdb w) in
        (* on error the count is the zero value and processing goes on *)
        let breachCount := default 0 res in
        let r2 := Expire (expire_ok e) key 300 r1 in
        if 3 <=? breachCount then
          if publish_ok e then
            ({| rdb := Del (del_ok e) key r2;
                js := js w ++ [(notificationSubject dp, triggerPayload dp)] |},
             Ack)
          else
            (* the error is logged and the counter kept *)
            ({| rdb := r2;
                js := if publish_sent e
                      then js w ++ [(notificationSubject dp, triggerPayload dp)]
                      else js w |},
             Ack)
        else ({| rdb := r2; js := js w |}, Ack)
      else if String.eqb (SensorName dp) "temp1"
              && float_le (Value dp) threshold
      then ({| rdb := Del (del_ok e) (redisKey dp) (rdb w); js := js w |}, Ack)
      else (w, Ack)
  end.

(** The body of the consumer loop over the messages it fetches, in order:
    the final world and the reply given to each message.  Each message
    finds the store as the time since the previous one has left it. *)
Fixpoint consume (w : World) (msgs : list (Env * Msg)) : World * list Reply :=
  match msgs with
  | [] => (w, [])
  | (e, m) :: rest =>
      let (w1, a) := processMessage e (pass (elapsed e) w) m in
      let (w2, acks) := consume w1 rest in
      (w2, a :: acks)
  end.

End Analysis.

(** ** net/http, as far as the handlers use it *)

Definition StatusOK : Z := 200.
Definition StatusCreated : Z := 201.
Definition StatusBadRequest : Z := 400.
Definition StatusMethodNotAllowed : Z := 405.
Definition StatusInternalServerError : Z := 500.

(** ** The broker: subjects and streams *)

Module Nats.

(** strings.Split(s, "."): the tokens of a subject. *)
Fixpoint tokens (s : string) : list string :=
  match s with
  | EmptyString => [EmptyString]
  | String c rest =>
      if Ascii.eqb c "."%char then EmptyString :: tokens rest
      else match tokens rest with
           | [] => [String c EmptyString]
           | t :: ts => String c t :: ts
           end
  end.

(** Token-wise matching of a subject against a pattern: [*] stands for one
    token, a final [>] for one or more tokens. *)
Fixpoint tokens_match (pat subj : list string) : bool :=
  match pat, subj with
  | [], [] => true
  | p :: ps, t :: ts =>
      match ps with
      | [] => String.eqb p ">" || ((String.eqb p "*" || String.eqb p t)
                                   && tokens_match ps ts)
      | _ :: _ => (String.eqb p "*" || String.eqb p t) && tokens_match ps ts
      end
  | _, _ => false
  end.

Definition subject_matches (pattern subject : string) : bool :=
  tokens_match (tokens pattern) (tokens subject).

Inductive StorageType := FileStorage | MemoryStorage.

Record StreamConfig := {
  Name : string;
  Subjects : list string;
  Storage : StorageType
}.

#[export] Instance StorageType_eq_dec : EqDecision StorageType.
Proof. solve_decision. Defined.

#[export] Instance StreamConfig_eq_dec : EqDecision StreamConfig.
Proof. solve_decision. Defined.

(** A message published on [subject] is stored by the stream when one of the
    stream's subjects matches it. *)
Definition captures (cfg : StreamConfig) (subject : string) : bool :=
  existsb (fun p => subject_matches p subject) (Subjects cfg).

(** AddStream.  [ok] is false when the broker cannot be reached or refuses a
    new stream.  A stream that exists under the name with the very same
    configuration is reported back as it is; a different configuration under
    a name in use is an error. *)
Definition AddStream (ok : bool) (cfg : StreamConfig)
  (streams : gmap string StreamConfig)
  : gmap string StreamConfig * option StreamConfig :=
  if ok then
    match streams !! Name cfg with
    | Some old =>
        if decide (old = cfg) then (streams, Some old) else (streams, None)
    | None => (<[Name cfg := cfg]> streams, Some cfg)
    end
  else (streams, None).

End Nats.

(** ** The data persistence service: its stream declaration *)

Module Persistence.

Definition streamName : string := "ORG_orgA_STREAM".
Definition consumerName : string := "DATA_PERSISTENCE".

(** The configuration main hands to js.AddStream before it subscribes. *)
Definition streamConfig : Nats.StreamConfig :=
  {| Nats.Name := streamName;
     Nats.Subjects := ["data.>"];
     Nats.Storage := Nats.FileStorage |}.

(** The call in main; its result is dropped. *)
Definition declareStream (ok : bool) (streams : gmap string Nats.StreamConfig)
  : gmap string Nats.StreamConfig :=
  fst (Nats.AddStream ok streamConfig streams).

End Persistence.

(** ** validator/v10 tags used by the services *)

Module Validator.

(** [required] on a string: not the empty string. *)
Definition required_string (s : string) : bool := negb (String.eqb s "").

(** [required] on a float64: not the zero value. *)
Definition required_float (x : float64) : bool := negb (float_is_zero x).

(** [required] on an int64: not the zero value. *)
Definition required_int (x : Z) : bool := negb (x =? 0).

Definition is_hex (c : ascii) : bool :=
  let n := nat_of_ascii c in
  ((48 <=? n)%nat && (n <=? 57)%nat) || ((97 <=? n)%nat && (n <=? 102)%nat).

Definition is_dash_position (i : nat) : bool :=
  Nat.eqb i 8 || Nat.eqb i 13 || Nat.eqb i 18 || Nat.eqb i 23.

Fixpoint uuid_from (i : nat) (s : string) : bool :=
  match s with
  | EmptyString => Nat.eqb i 36
  | String c rest =>
      (if is_dash_position i then Ascii.eqb c "-"%char else is_hex c)
      && uuid_from (S i) rest
  end.

(** [uuid]: 8-4-4-4-12 lower-case hexadecimal digits. *)
Definition uuid (s : string) : bool := uuid_from 0 s.

(** The names of the fields that fail, in declaration order. *)
Definition failing (checks : list (string * bool)) : list string :=
  map fst (List.filter (fun c => negb (snd c)) checks).

End Validator.

(** ** nats-io/jwt user claims, as far as the issuer touches them *)

Module Jwt.

Record Permission := { Allow : list string; Deny : list string }.

Record PermissionSet := { Pub : Permission; Sub : Permission }.

Record UserClaims := {
  Subject : string;
  Permissions : PermissionSet;
  Expires : Z;      (* Unix seconds; 0 stands for no expiry *)
  NotBefore : Z
}.

(** jwt.NewUserClaims(subject): nil for the empty subject, otherwise claims
    with no permission and no expiry set. *)
Definition NewUserClaims (subject : string) : option UserClaims :=
  if String.eqb subject "" then None
  else Some {| Subject := subject;
               Permissions := {| Pub := {| Allow := []; Deny := [] |};
                                 Sub := {| Allow := []; Deny := [] |} |};
               Expires := 0;
               NotBefore := 0 |}.

(** claims.Permissions.Pub.Allow.Add(subject) *)
Definition PubAllowAdd (subject : string) (c : UserClaims) : UserClaims :=
  {| Subject := Subject c;
     Permissions :=
       {| Pub := {| Allow := Allow (Pub (Permissions c)) ++ [subject];
                    Deny := Deny (Pub (Permissions c)) |};
          Sub := Sub (Permissions c) |};
     Expires := Expires c;
     NotBefore := NotBefore c |}.

Definition SetExpires (t : Z) (c : UserClaims) : UserClaims :=
  {| Subject := Subject c; Permissions := Permissions c;
     Expires := t; NotBefore := NotBefore c |}.

Definition SetNotBefore (t : Z) (c : UserClaims) : UserClaims :=
  {| Subject := Subject c; Permissions := Permissions c;
     Expires := Expires c; NotBefore := t |}.

(** The kinds of nkeys key pairs. *)
Inductive KeyKind := OperatorKey | AccountKey | UserKey.

Record KeyPair := { seed : string; kind : KeyKind }.

(** An encoded token: the claims it carries and the key that signed it. *)
Record Token := { payload : UserClaims; signer : KeyPair }.

(** A character of the base32 alphabet nkeys are written in: A-Z and 2-7. *)
Definition is_base32 (c : ascii) : bool :=
  let n := nat_of_ascii c in
  ((65 <=? n)%nat && (n <=? 90)%nat) || ((50 <=? n)%nat && (n <=? 55)%nat).

Fixpoint all_base32 (s : string) : bool :=
  match s with
  | EmptyString => true
  | String c rest => is_base32 c && all_base32 rest
  end.

(** What a public user nkey looks like, character by character: written in
    the base32 alphabet, the first character U (the prefix byte of a user
    key). *)
Definition user_key_shape (s : string) : bool :=
  match s with
  | String c _ => Ascii.eqb c "U"%char
  | EmptyString => false
  end
  && all_base32 s.

(** claims.Encode(pair) on user claims.  The subject has to be a public user
    nkey: it looks like one and decodes to a key whose checksum holds
    ([checksum_ok], the part the characters leave open).  There has to be a
    key pair to sign with, and it has to be an account's. *)
Definition Encode (checksum_ok : bool) (pair : option KeyPair)
  (c : UserClaims) : option Token :=
  if user_key_shape (Subject c) && checksum_ok then
    match pair with
    | None => None
    | Some kp =>
        match kind kp with
        | AccountKey => Some {| payload := c; signer := kp |}
        | _ => None
        end
    end
  else None.

End Jwt.

(** ** The management service *)

Module Management.

(** Organization represents an IoT customer's organization. *)
Record Organization := { ID : string; Name : string }.

(** DeviceRegistration represents the payload for registering a new device
    (its [Name] field is [RegName] here). *)
Record DeviceRegistration := { OrganizationID : string; RegName : string }.

Inductive Body :=
| Text (s : string)
| ValidationError (fields : list string)
| Registered (device_id : string) (jwt_token : Jwt.Token).

Record Response := { status : Z; body : Body }.

(** http.Error(w, msg, code) *)
Definition httpError (msg : string) (code : Z) : Response :=
  {| status := code; body := Text msg |}.

(** How a call ends: it returns, or it panics (here: on a nil pointer). *)
Inductive Go (A : Type) :=
| Returns (a : A)
| Panics.
Arguments Returns {A} a.
Arguments Panics {A}.

(** The package-level variables of the service. *)
Record Globals := { signingKey : option Jwt.KeyPair }.

Inductive Startup :=
| Fatal
| Serving (g : Globals).

(** main, up to the point where the router serves requests.  The arguments
    are the outcomes of nats.Connect, nc.JetStream and nkeys.CreateUser (a
    user key pair, when there is one).  The created key pair is bound to the
    local [kp], whose seed is logged; [signingKey] is assigned nowhere and
    keeps its zero value. *)
Definition main (connect_ok jetstream_ok : bool)
  (createUser : option Jwt.KeyPair) : Startup :=
  if negb connect_ok then Fatal
  else if negb jetstream_ok then Fatal
  else match createUser with
       | None => Fatal
       | Some kp => Serving {| signingKey := None |}
       end.

Definition validateOrganization (org : Organization) : list string :=
  Validator.failing
    [("ID", Validator.required_string (ID org));
     ("Name", Validator.required_string (Name org))].

Definition validateRegistration (reg : DeviceRegistration) : list string :=
  Validator.failing
    [("OrganizationID",
      Validator.required_string (OrganizationID reg)
      && Validator.uuid (OrganizationID reg));
     ("Name", Validator.required_string (RegName reg))].

Definition orgStreamName (id : string) : string := "ORG_" +:+ id +:+ "_STREAM".

Definition orgStreamSubjects (id : string) : list string :=
  ["data." +:+ id +:+ ".>"].

Definition orgStreamConfig (id : string) : Nats.StreamConfig :=
  {| Nats.Name := orgStreamName id;
     Nats.Subjects := orgStreamSubjects id;
     Nats.Storage := Nats.FileStorage |}.

(** [req] is the request body as the JSON decoder sees it; [broker_ok] the
    outcome the broker gives to the AddStream request. *)
Definition createOrganizationHandler (broker_ok : bool)
  (streams : gmap string Nats.StreamConfig) (req : option Organization)
  : gmap string Nats.StreamConfig * Response :=
  match req with
  | None => (streams, httpError "Invalid JSON payload" StatusBadRequest)
  | Some org =>
      match validateOrganization org with
      | (_ :: _) as errs =>
          (streams, {| status := StatusBadRequest;
                       body := ValidationError errs |})
      | [] =>
          match Nats.AddStream broker_ok (orgStreamConfig (ID org)) streams with
          | (streams', None) =>
              (streams', httpError "Failed to create organization stream"
                           StatusInternalServerError)
          | (streams', Some _) =>
              (streams',
               {| status := StatusCreated;
                  body := Text ("Organization '" +:+ ID org
                                +:+ "' created successfully.") |})
          end
      end
  end.

Definition devicePattern (orgID deviceID : string) : string :=
  "data." +:+ orgID +:+ "." +:+ deviceID +:+ ".>".

(** The claims registerDeviceHandler builds for a new device: [None] when
    jwt.NewUserClaims returns nil. *)
Definition registrationClaims (reg : DeviceRegistration) (deviceID : string)
  : option Jwt.UserClaims :=
  Jwt.PubAllowAdd (devicePattern (OrganizationID reg) deviceID)
    <$> Jwt.NewUserClaims deviceID.

(** [deviceID] is the value of uuid.New().String(); [checksum_ok] tells
    whether the claims' subject decodes to a key whose checksum holds, should
    the subject look like an nkey. *)
Definition registerDeviceHandler (g : Globals) (deviceID : string)
  (checksum_ok : bool) (req : option DeviceRegistration) : Go Response :=
  match req with
  | None => Returns (httpError "Invalid JSON payload" StatusBadRequest)
  | Some reg =>
      match validateRegistration reg with
      | (_ :: _) as errs =>
          Returns {| status := StatusBadRequest;
                     body := ValidationError errs |}
      | [] =>
          match registrationClaims reg deviceID with
          | None => Panics
          | Some claims =>
              match Jwt.Encode checksum_ok (signingKey g) claims with
              | None => Returns (httpError "Failed to register device"
                                   StatusInternalServerError)
              | Some token =>
                  Returns {| status := StatusCreated;
                             body := Registered deviceID token |}
              end
          end
      end
  end.

(** The claims GenerateSASToken builds.  [now1] and [now2] are the two
    readings of time.Now(), in Unix seconds. *)
Definition sasClaims (now1 now2 : Z) (orgID deviceID : string)
  : option Jwt.UserClaims :=
  (fun claims =>
     Jwt.SetNotBefore now2
       (Jwt.SetExpires (now1 + 12 * 3600)
          (Jwt.PubAllowAdd (devicePattern orgID deviceID) claims)))
  <$> Jwt.NewUserClaims deviceID.

(** GenerateSASToken: the token, [None] for the error, or a panic when
    jwt.NewUserClaims has returned nil. *)
Definition GenerateSASToken (g : Globals) (checksum_ok : bool) (now1 now2 : Z)
  (orgID deviceID : string) : Go (option Jwt.Token) :=
  match sasClaims now1 now2 orgID deviceID with
  | None => Panics
  | Some claims => Returns (Jwt.Encode checksum_ok (signingKey g) claims)
  end.

End Management.

(** ** ingestion-service/main.go *)

Module Ingestion.

(** DataPoint represents a single sensor reading from a device; every field
    carries the tag [validate:"required"]. *)
Record DataPoint := {
  OrganizationID : string;
  DeviceID : string;
  SensorName : string;
  Value : float64;
  Timestamp : Z
}.

Inductive Body :=
| Text (s : string)
| ValidationError (fields : list string).

Record Response := { status : Z; body : Body }.

Definition httpError (msg : string) (code : Z) : Response :=
  {| status := code; body := Text msg |}.

(** A request, with its body as the JSON decoder sees it. *)
Record Request := { Method : string; Payload : option DataPoint }.

Definition validateDataPoint (dp : DataPoint) : list string :=
  Validator.failing
    [("OrganizationID", Validator.required_string (OrganizationID dp));
     ("DeviceID", Validator.required_string (DeviceID dp));
     ("SensorName", Validator.required_string (SensorName dp));
     ("Value", Validator.required_float (Value dp));
     ("Timestamp", Validator.required_int (Timestamp dp))].

Definition subject (dp : DataPoint) : string :=
  "data." +:+ OrganizationID dp +:+ "." +:+ DeviceID dp
  +:+ "." +:+ SensorName dp.

(** ingestHandler processes incoming data from devices.  [js] is what has
    been published so far, oldest first; [publish_ok] the outcome of
    js.Publish. *)
Definition ingestHandler (publish_ok : bool) (js : list (string * DataPoint))
  (r : Request) : list (string * DataPoint) * Response :=
  if negb (String.eqb (Method r) "POST") then
    (js, httpError "Only POST method is supported" StatusMethodNotAllowed)
  else
    match Payload r with
    | None => (js, httpError "Invalid JSON payload" StatusBadRequest)
    | Some dp =>
        match validateDataPoint dp with
        | (_ :: _) as errs =>
            (js, {| status := StatusBadRequest;
                    body := ValidationError errs |})
        | [] =>
            if publish_ok then
              (js ++ [(subject dp, dp)],
               {| status := StatusOK;
                  body := Text "Data ingested successfully" |})
            else
              (js, httpError "Failed to ingest data"
                     StatusInternalServerError)
        end
    end.

End Ingestion.

(** ** Vocabulary of the breach detector's properties *)

Module Detector.
Import Analysis.

(** The breach predicate of the monitored sensor. *)
Definition breach (dp : DataPoint) : bool :=
  String.eqb (SensorName dp) "temp1" && float_gt (Value dp) threshold.

(** A reading of the monitored sensor of device [d]. *)
Definition monitored (d : string) (dp : DataPoint) : Prop :=
  DeviceID dp = d /\ SensorName dp = "temp1".

Definition monitoredb (d : string) (dp : DataPoint) : bool :=
  String.eqb (DeviceID dp) d && String.eqb (SensorName dp) "temp1".

(** The readings of the monitored sensor of device [d] among those fed to
    the loop, in order. *)
Definition readings_of (d : string) (feed : list (Env * DataPoint))
  : list DataPoint :=
  List.filter (monitoredb d) (map snd feed).

(** The alerts published for device [d]. *)
Definition alerts_for (d : string) (w : World)
  : list (string * NotificationTrigger) :=
  List.filter (fun a => String.eqb (TriggerDeviceID (snd a)) d) (js w).

(** The counter store, the broker and the deletes all answer. *)
Definition operational (e : Env) : bool :=
  incr_ok e && publish_ok e && del_ok e.

(** Every call answers, and the message follows the previous one at once. *)
Definition nominal : Env :=
  {| incr_ok := true; expire_ok := true; publish_ok := true; del_ok := true;
     publish_sent := true; elapsed := 0 |}.

(** The counter store cannot be reached; the broker answers. *)
Definition store_down : Env :=
  {| incr_ok := false; expire_ok := false; publish_ok := true;
     del_ok := false; publish_sent := true; elapsed := 0 |}.

(** The broker cannot be reached: the publish fails and nothing is sent; the
    counter store answers. *)
Definition broker_down : Env :=
  {| incr_ok := true; expire_ok := true; publish_ok := false;
     del_ok := true; publish_sent := false; elapsed := 0 |}.

(** The alert reaches its subject, but no stream acknowledges it (none is
    bound to notifications.>) and js.Publish returns an error. *)
Definition unacknowledged : Env :=
  {| incr_ok := true; expire_ok := true; publish_ok := false;
     del_ok := true; publish_sent := true; elapsed := 0 |}.

(** Every call answers, [seconds] after the previous message. *)
Definition after (seconds : Z) : Env :=
  {| incr_ok := true; expire_ok := true; publish_ok := true; del_ok := true;
     publish_sent := true; elapsed := seconds |}.



(** The message that carries a reading, as the ingestion service publishes
    it. *)
Definition deliver (dp : DataPoint) : Msg :=
  {| Subject := "data." +:+ OrganizationID dp +:+ "." +:+ DeviceID dp
                +:+ "." +:+ SensorName dp;
     Data := Some dp |}.

Definition messages (feed : list (Env * DataPoint)) : list (Env * Msg) :=
  map (fun x => (fst x, deliver (snd x))) feed.

(** Nothing counted, nothing published. *)
Definition start : World := {| rdb := ∅; js := [] |}.

(** The world after the loop has processed the whole feed. *)
Definition run (w : World) (feed : list (Env * DataPoint)) : World :=
  fst (consume w (messages feed)).

(** The key of the counter of device [d] and sensor [sensor]. *)
Definition keyOf (d sensor : string) : string :=
  "breach:count:" +:+ d +:+ ":" +:+ sensor.

(** The value of the counter under [key]; an absent counter counts 0. *)
Definition counter (w : World) (key : string) : Z :=
  match rdb w !! key with
  | None => 0
  | Some e => count e
  end.

(** The counter under [k] stands below three. *)
Definition armed_below_three (w : World) (k : string) : Prop :=
  0 <= counter w k <= 2.



(** The readings of the scenario: 85, 90, 75, 95, 95, 95 for device
    machine-123, sensor temp1. *)
Definition reading (v : Z) : DataPoint :=
  {| OrganizationID := "orgA"; DeviceID := "machine-123";
     SensorName := "temp1"; Value := float_of_Z v; Timestamp := 1672531200 |}.

Definition scenario : list (Env * DataPoint) :=
  map (fun v => (nominal, reading v)) [85; 90; 75; 95; 95; 95].

(** The same readings, with readings of another device and of another sensor
    in between, the store being down for the other device. *)
Definition other_device (v : Z) : DataPoint :=
  {| OrganizationID := "orgA"; DeviceID := "machine-456";
     SensorName := "temp1"; Value := float_of_Z v; Timestamp := 1672531200 |}.

Definition other_sensor (v : Z) : DataPoint :=
  {| OrganizationID := "orgA"; DeviceID := "machine-123";
     SensorName := "humidity"; Value := float_of_Z v;
     Timestamp := 1672531200 |}.



(** Three breaching readings in a row, the alert of the third published
    without acknowledgment. *)
Definition unacked_third : list (Env * DataPoint) :=
  [(nominal, reading 85); (nominal, reading 90); (unacknowledged, reading 95)].

Definition interleaved : list (Env * DataPoint) :=
  [(nominal, reading 85); (store_down, other_device 70);
   (nominal, reading 90); (nominal, other_sensor 20);
   (nominal, reading 75); (nominal, reading 95);
   (store_down, other_device 99); (nominal, reading 95);
   (nominal, other_sensor 99); (nominal, reading 95)].

End Detector.

(** ** Vocabulary of tenant isolation *)

Module Tenancy.

(** The identifier is a single subject token: no [.] in it. *)
Fixpoint dotless (s : string) : bool :=
  match s with
  | EmptyString => true
  | String c rest => negb (Ascii.eqb c "."%char) && dotless rest
  end.

(** No reading published for organization [B] is stored by the stream. *)
Definition isolated_from (cfg : Nats.StreamConfig) (B : string) : Prop :=
  forall dp : Ingestion.DataPoint,
    Ingestion.OrganizationID dp = B ->
    Nats.captures cfg (Ingestion.subject dp) = false.

(** A reading of organization orgB. *)
Definition orgB_reading : Ingestion.DataPoint :=
  {| Ingestion.OrganizationID := "orgB";
     Ingestion.DeviceID := "machine-123";
     Ingestion.SensorName := "temp1";
     Ingestion.Value := float_of_Z 85;
     Ingestion.Timestamp := 1672531200 |}.

End Tenancy.

(** ** Vocabulary of provisioning *)

Module Provisioning.
Import Management.

(** The answer of createOrganizationHandler on success. *)
Definition created (org : Organization) : Response :=
  {| status := StatusCreated;
     body := Text ("Organization '" +:+ ID org
                   +:+ "' created successfully.") |}.

End Provisioning.

(** ** Sample requests *)

Module Samples.

(** A key pair as nkeys.CreateUser makes it, and an account's key pair. *)
Definition key : Jwt.KeyPair :=
  {| Jwt.seed := "SUAKEYSEED"; Jwt.kind := Jwt.UserKey |}.

Definition accountKey : Jwt.KeyPair :=
  {| Jwt.seed := "SAAKEYSEED"; Jwt.kind := Jwt.AccountKey |}.

(** A string that looks like a public user nkey. *)
Definition userNkey : string :=
  "UDXU4RCSJNZOIQHZNWXHXORDPRTGNJAHAHFRGZNEEJCPQTT2M7NLCNF4".

Definition orgA : Management.Organization :=
  {| Management.ID := "orgA"; Management.Name := "A Corp" |}.

(** The stream table once orgA has been provisioned. *)
Definition provisioned : gmap string Nats.StreamConfig :=
  <[Management.orgStreamName "orgA" := Management.orgStreamConfig "orgA"]> ∅.

Definition registration : Management.DeviceRegistration :=
  {| Management.OrganizationID := "7c9e6679-7425-40de-944b-e07fc1f90ae7";
     Management.RegName := "Temp Sensor 1" |}.

Definition deviceID : string := "3f2504e0-4f89-41d3-9a0c-0305e82c3301".

(** A reading with value 0 and one with timestamp 0. *)
Definition zero_value : Ingestion.DataPoint :=
  {| Ingestion.OrganizationID := "orgA";
     Ingestion.DeviceID := "machine-123";
     Ingestion.SensorName := "temp1";
     Ingestion.Value := float_of_Z 0;
     Ingestion.Timestamp := 1672531200 |}.

Definition zero_timestamp : Ingestion.DataPoint :=
  {| Ingestion.OrganizationID := "orgA";
     Ingestion.DeviceID := "machine-123";
     Ingestion.SensorName := "temp1";
     Ingestion.Value := float_of_Z 85;
     Ingestion.Timestamp := 0 |}.

End Samples.

(** ** analysis-engine/main.go: the fetch loop of main *)

Module Engine.
Import Analysis.

(** What one call of sub.Fetch returns: a batch of messages (each with the
    outcome of the remote calls made while it is processed), nats.ErrTimeout,
    or another error. *)
Inductive Fetched :=
| Batch (msgs : list (Env * Msg))
| ErrTimeout
| FetchError.

(** The first iterations of the endless loop of main, one per fetch: a
    timeout and an error are passed over, the messages of a batch are
    processed in order. *)
Fixpoint loop (w : World) (fetches : list Fetched) : World * list Reply :=
  match fetches with
  | [] => (w, [])
  | Batch msgs :: rest =>
      let (w1, acks1) := consume w msgs in
      let (w2, acks2) := loop w1 rest in
      (w2, acks1 ++ acks2)
  | ErrTimeout :: rest => loop w rest
  | FetchError :: rest => loop w rest
  end.

(** The messages of the batches, in the order they are fetched. *)
Fixpoint fetched_messages (fetches : list Fetched) : list (Env * Msg) :=
  match fetches with
  | [] => []
  | Batch msgs :: rest => msgs ++ fetched_messages rest
  | _ :: rest => fetched_messages rest
  end.

(** The reply the payload of a message calls for. *)
Definition reply_for (m : Msg) : Reply :=
  match Data m with
  | None => Nak
  | Some _ => Ack
  end.

End Engine.

(** ** The data persistence service: startup and processMessage *)

Module Sink.
Import Analysis.

(** A point handed to the InfluxDB write API. *)
Record Point := {
  measurement : string;
  tags : list (string * string);
  fields : list (string * float64);
  time : Z
}.

(** The point processMessage builds from a reading (the service's DataPoint
    is declared as the analysis engine's is). *)
Definition point_of (dp : DataPoint) : Point :=
  {| measurement := SensorName dp;
     tags := [("organization_id", OrganizationID dp);
              ("device_id", DeviceID dp);
              ("sensor_name", SensorName dp)];
     fields := [("value", Value dp)];
     time := Timestamp dp |}.

(** [written] holds the points handed to writeAPI.WritePoint so far. *)
Definition processMessage (written : list Point) (msg : Msg)
  : list Point * Reply :=
  match Data msg with
  | None => (written, Nak)
  | Some dp => (written ++ [point_of dp], Ack)
  end.

Fixpoint consume (written : list Point) (msgs : list Msg)
  : list Point * list Reply :=
  match msgs with
  | [] => (written, [])
  | m :: rest =>
      let (w1, a) := processMessage written m in
      let (w2, acks) := consume w1 rest in
      (w2, a :: acks)
  end.

Record Client := { serverURL : string; authToken : string }.

(** The retry loop of main: [i] counts the attempts made, [health i] is the
    outcome of the health check of attempt [i], [slept] the seconds slept so
    far; every attempt makes a new client and stores it in [influxClient]
    before the health check. *)
Fixpoint connectInflux (fuel i : nat) (health : nat -> bool)
  (url token : string) (influxClient : option Client) (slept : Z)
  : option Client * nat * Z :=
  match fuel with
  | O => (influxClient, i, slept)
  | S fuel' =>
      let influxClient :=
        Some {| serverURL := url; authToken := token |} in
      if health i then (influxClient, S i, slept)
      else connectInflux fuel' (S i) health url token influxClient (slept + 5)
  end.

Inductive Startup :=
| Fatal
| Listening (client : Client) (attempts : nat) (slept : Z)
    (streams : gmap string Nats.StreamConfig).

(** main, up to the fetch loop.  The arguments are the outcomes of
    nats.Connect, nc.JetStream, the health checks, js.AddStream and
    js.PullSubscribe. *)
Definition main (connect_ok jetstream_ok : bool) (url token : string)
  (health : nat -> bool) (addstream_ok subscribe_ok : bool)
  (streams : gmap string Nats.StreamConfig) : Startup :=
  if negb connect_ok then Fatal
  else if negb jetstream_ok then Fatal
  else
    match connectInflux 10 0 health url token None 0 with
    | (None, _, _) => Fatal
    | (Some client, attempts, slept) =>
        let streams' := Persistence.declareStream addstream_ok streams in
        if negb subscribe_ok then Fatal
        else Listening client attempts slept streams'
    end.

End Sink.

(** ** notification-service/main.go *)

Module Notification.
Import Analysis.

(** The subject and the queue group of the subscription made in main. *)
Definition subscription : string := "notifications.>".
Definition queueGroup : string := "notification-group".

(** processNotification: [data] is the payload as json.Unmarshal sees it,
    [sent] the organizations a fake email has been sent to so far. *)
Definition processNotification (sent : list string)
  (data : option NotificationTrigger) : list string :=
  match data with
  | None => sent
  | Some trigger => sent ++ [TriggerOrganizationID trigger]
  end.

(** The handler run on the payloads delivered, in order. *)
Definition deliver_all (sent : list string)
  (payloads : list (option NotificationTrigger)) : list string :=
  fold_left processNotification payloads sent.

End Notification.

(** ** Vocabulary of the further properties *)

Module Further.
Import Analysis Detector.

(** The store holds no counter below one. *)
Definition counters_positive (r : gmap string Entry) : Prop :=
  forall k en, r !! k = Some en -> 1 <= count en.


(** Every counter in the store stands at one or two and has something left
    of its idle window of five minutes. *)
Definition counters_fresh (r : gmap string Entry) : Prop :=
  forall k en,
    r !! k = Some en ->
    1 <= count en <= 2 /\ exists t, ttl en = Some t /\ 0 < t <= 300.

(** Every remote call answers, and time does not run backwards. *)
Definition all_answer (e : Env) : Prop :=
  incr_ok e = true /\ expire_ok e = true /\ publish_ok e = true
  /\ del_ok e = true /\ 0 <= elapsed e.

(** Time does not run backwards, and every reading of sensor temp1 of device
    [d] is processed 300 seconds or more after the previous one; [since] is
    the time since that previous one. *)
Fixpoint sparse (d : string) (since : Z) (feed : list (Env * DataPoint))
  : Prop :=
  match feed with
  | [] => True
  | x :: rest =>
      0 <= elapsed (fst x)
      /\ if monitoredb d (snd x)
         then 300 <= since + elapsed (fst x) /\ sparse d 0 rest
         else sparse d (since + elapsed (fst x)) rest
  end.

(** The counter of device [d], [since] seconds after the last reading of its
    sensor temp1: absent, or at one with no more of its idle window left than
    the 300 seconds less the time gone by. *)
Definition stale (d : string) (w : World) (since : Z) : Prop :=
  rdb w !! keyOf d "temp1" = None
  \/ exists t,
       rdb w !! keyOf d "temp1" = Some {| count := 1; ttl := Some t |}
       /\ t + since <= 300.

(** Breaching readings of machine-123, 300 seconds apart, the EXPIRE of each
    answering. *)
Definition every_five_minutes (n : nat) : list (Env * DataPoint) :=
  repeat (after 300, reading 95) n.

(** An alert as processMessage shapes it for some reading of sensor temp1. *)
Definition well_formed_alert (a : string * NotificationTrigger) : Prop :=
  fst a = "notifications." +:+ TriggerOrganizationID (snd a) +:+ "."
          +:+ TriggerDeviceID (snd a)
  /\ TriggerSensorName (snd a) = "temp1"
  /\ Condition (snd a) = "Consecutive Temp Threshold Breach".

(** The number of breaching readings among [dps]. *)
Definition breaches (dps : list DataPoint) : nat :=
  length (List.filter breach dps).

(** An identifier that stands for itself in a subject pattern: one token, not
    the wildcard of one token. *)
Definition literal_token (s : string) : Prop :=
  Tenancy.dotless s = true /\ s <> "*".

(** Readings of one device identifier sent by two organizations. *)
Definition orgB_device (v : Z) : DataPoint :=
  {| OrganizationID := "orgB"; DeviceID := "machine-123";
     SensorName := "temp1"; Value := float_of_Z v; Timestamp := 1672531200 |}.

(** A reading of the device of the sample registration. *)
Definition registered_reading : Ingestion.DataPoint :=
  {| Ingestion.OrganizationID :=
       Management.OrganizationID Samples.registration;
     Ingestion.DeviceID := Samples.deviceID;
     Ingestion.SensorName := "temp1";
     Ingestion.Value := float_of_Z 85;
     Ingestion.Timestamp := 1672531200 |}.

(** The three identifiers of a reading are single tokens. *)
Definition plain_identifiers (dp : Ingestion.DataPoint) : Prop :=
  Tenancy.dotless (Ingestion.OrganizationID dp) = true
  /\ Tenancy.dotless (Ingestion.DeviceID dp) = true
  /\ Tenancy.dotless (Ingestion.SensorName dp) = true.

End Further.

(** * Properties *)

(** ** float64 comparisons *)

Lemma float_gt_not_le x y : float_gt x y = negb (float_le x y).
Proof. unfold float_gt, float_le. apply Z.ltb_antisym. Qed.

Lemma float_gt_spec x y : float_gt x y = true <-> Qlt y x.
Proof. unfold float_gt, Qlt. apply Z.ltb_lt. Qed.

Lemma float_le_spec x y : float_le x y = true <-> Qle x y.
Proof. unfold float_le, Qle. apply Z.leb_le. Qed.

Lemma float_is_zero_spec x : float_is_zero x = true <-> Qeq x (float_of_Z 0).
Proof.
  unfold float_is_zero, Qeq, float_of_Z; simpl.
  rewrite Z.eqb_eq. lia.
Qed.

(** ** The breach detector *)

Section DetectorSteps.
Import Analysis Detector.

Lemma operational_inv e :
  operational e = true ->
  incr_ok e = true /\ publish_ok e = true /\ del_ok e = true.
Proof.
  unfold operational. intros H.
  apply andb_prop in H as [H Hd]. apply andb_prop in H as [Hi Hp]. auto.
Qed.

Lemma lookup_Expire ok key s (r : gmap string Entry) k :
  count <$> (Expire ok key s r !! k) = count <$> (r !! k).
Proof.
  unfold Expire. destruct ok; [|done].
  rewrite lookup_alter. case_decide; [subst|done].
  by destruct (r !! k).
Qed.

(** A breaching reading below the threshold count: the counter moves up by
    one, nothing is published. *)
Lemma step_arm e w dp :
  incr_ok e = true -> breach dp = true ->
  counter w (redisKey dp) + 1 < 3 ->
  let w' := fst (processMessage e w (deliver dp)) in
  js w' = js w /\ counter w' (redisKey dp) = counter w (redisKey dp) + 1
  /\ rdb w' !! redisKey dp <> None.
Proof.
  intros Hi Hb Hc w'. subst w'.
  unfold processMessage, counter in *. simpl.
  fold (breach dp). rewrite Hb. unfold Incr. rewrite Hi.
  destruct (rdb w !! redisKey dp) as [en|] eqn:Hk.
  - assert ((count en =? maxInt64) = false) as ->
      by (apply Z.eqb_neq; unfold maxInt64; lia).
    simpl. assert ((3 <=? count en + 1) = false) as -> by (apply Z.leb_gt; lia).
    simpl. split; [done|].
    pose proof (lookup_Expire (expire_ok e) (redisKey dp) 300
      (<[redisKey dp:={| count := count en + 1; ttl := ttl en |}]> (rdb w))
      (redisKey dp)) as HE.
    rewrite lookup_insert_eq in HE. simpl in HE.
    destruct (Expire _ _ _ _ !! _) as [en'|]; simpl in HE; [|done].
    split; [injection HE; lia | done].
  - simpl. split; [done|].
    pose proof (lookup_Expire (expire_ok e) (redisKey dp) 300
      (<[redisKey dp:={| count := 1; ttl := None |}]> (rdb w))
      (redisKey dp)) as HE.
    rewrite lookup_insert_eq in HE. simpl in HE.
    destruct (Expire _ _ _ _ !! _) as [en'|]; simpl in HE; [|done].
    split; [injection HE; lia | done].
Qed.

(** A breaching reading that takes the count to three: one alert is
    published and the counter is deleted. *)
Lemma step_fire e w dp :
  operational e = true -> breach dp = true ->
  counter w (redisKey dp) = 2 ->
  let w' := fst (processMessage e w (deliver dp)) in
  js w' = js w ++ [(notificationSubject dp, triggerPayload dp)]
  /\ rdb w' !! redisKey dp = None.
Proof.
  intros Hop Hb Hc w'. subst w'.
  apply operational_inv in Hop as (Hi & Hp & Hd).
  unfold processMessage, counter in *. simpl.
  fold (breach dp). rewrite Hb. unfold Incr. rewrite Hi.
  destruct (rdb w !! redisKey dp) as [en|] eqn:Hk; [|lia].
  assert ((count en =? maxInt64) = false) as ->
    by (apply Z.eqb_neq; unfold maxInt64; lia).
  simpl. rewrite Hc. simpl. rewrite Hp, Hd. simpl.
  split; [done|]. apply lookup_delete_eq.
Qed.

(** A reading of the monitored sensor at or below the threshold: the counter
    is deleted, nothing is published. *)
Lemma step_clear e w dp :
  del_ok e = true -> SensorName dp = "temp1" -> breach dp = false ->
  let w' := fst (processMessage e w (deliver dp)) in
  js w' = js w /\ rdb w' !! redisKey dp = None.
Proof.
  intros Hd Hs Hb w'. subst w'.
  unfold processMessage. simpl. fold (breach dp). rewrite Hb.
  unfold breach in Hb. rewrite Hs in *. simpl in *.
  rewrite float_gt_not_le in Hb. apply negb_false_iff in Hb. rewrite Hb.
  rewrite Hd. simpl. split; [done|]. apply lookup_delete_eq.
Qed.

End DetectorSteps.

(** ** Runs of the consumer loop *)

Section DetectorRuns.
Import Analysis Detector.

Lemma run_nil w : run w [] = w.
Proof. reflexivity. Qed.

Lemma run_cons w x feed :
  run w (x :: feed)
  = run (fst (processMessage (fst x) (pass (elapsed (fst x)) w)
                (deliver (snd x)))) feed.
Proof.
  unfold run. simpl.
  destruct (processMessage (fst x) (pass (elapsed (fst x)) w)
              (deliver (snd x))) as [w1 a]. simpl.
  by destruct (consume w1 (messages feed)).
Qed.

Lemma monitored_key d dp : monitored d dp -> redisKey dp = keyOf d "temp1".
Proof. intros [Hd Hs]. unfold redisKey, keyOf. by rewrite Hd, Hs. Qed.

Lemma start_armed k : armed_below_three start k.
Proof.
  unfold armed_below_three, counter, start. simpl. rewrite lookup_empty. lia.
Qed.

Lemma absent_armed w k : rdb w !! k = None -> armed_below_three w k.
Proof. unfold armed_below_three, counter. intros ->. lia. Qed.

Lemma absent_counter w k : rdb w !! k = None -> counter w k = 0.
Proof. unfold counter. by intros ->. Qed.

Lemma monitoredb_spec d dp : monitoredb d dp = true <-> monitored d dp.
Proof.
  unfold monitoredb, monitored.
  rewrite andb_true_iff, !String.eqb_eq. done.
Qed.

(** Cancelling a common suffix. *)
Lemma append_length (s t : string) :
  String.length (s +:+ t) = (String.length s + String.length t)%nat.
Proof. induction s as [|c s IH]; simpl; [done|]. by rewrite IH. Qed.

Lemma append_inv_tail (s1 s2 t : string) : s1 +:+ t = s2 +:+ t -> s1 = s2.
Proof.
  revert s2. induction s1 as [|c s1 IH]; intros [|c2 s2] H; simpl in H.
  - done.
  - apply (f_equal String.length) in H.
    rewrite !append_length in H. simpl in H. lia.
  - apply (f_equal String.length) in H. simpl in H.
    rewrite !append_length in H. simpl in H. lia.
  - injection H as -> H. f_equal. by apply IH.
Qed.

(** Counters of different devices live under different keys. *)
Lemma keyOf_inj d1 d2 sensor : keyOf d1 sensor = keyOf d2 sensor -> d1 = d2.
Proof.
  unfold keyOf. intros H.
  apply (String.app_inj "breach:count:") in H.
  by apply append_inv_tail in H.
Qed.

(** A reading of another sensor leaves the world as it is. *)
Lemma step_other_sensor e w dp :
  SensorName dp <> "temp1" -> processMessage e w (deliver dp) = (w, Ack).
Proof.
  intros H. apply String.eqb_neq in H.
  unfold processMessage. simpl. by rewrite H.
Qed.

(** Processing a reading touches no key but the reading's own. *)
Lemma step_other_key e w dp k :
  redisKey dp <> k ->
  rdb (fst (processMessage e w (deliver dp))) !! k = rdb w !! k.
Proof.
  intros Hk. unfold processMessage. simpl.
  assert (forall ok s r, Expire ok (redisKey dp) s r !! k = r !! k) as HE.
  { intros ok s r. unfold Expire. destruct ok; [|done].
    by apply lookup_alter_ne. }
  assert (forall ok r, Del ok (redisKey dp) r !! k = r !! k) as HD.
  { intros ok r. unfold Del. destruct ok; [|done].
    by apply lookup_delete_ne. }
  assert (forall ok r, fst (Incr ok (redisKey dp) r) !! k = r !! k) as HI.
  { intros ok r. unfold Incr. destruct ok; [|done].
    destruct (r !! redisKey dp) as [en|]; simpl.
    - destruct (count en =? maxInt64); simpl; [done|].
      by apply lookup_insert_ne.
    - by apply lookup_insert_ne. }
  destruct (_ && float_gt _ _).
  - specialize (HI (incr_ok e) (rdb w)).
    destruct (Incr _ _ _) as [r1 res]. simpl in HI.
    destruct (3 <=? default 0 res); simpl.
    + destruct (publish_ok e); simpl; by rewrite ?HD, HE.
    + by rewrite HE.
  - destruct (_ && float_le _ _); simpl; [by rewrite HD|done].
Qed.

(** What processing a reading publishes, if anything, is an alert for the
    reading's device. *)
Lemma step_published e w dp :
  js (fst (processMessage e w (deliver dp))) = js w
  \/ js (fst (processMessage e w (deliver dp)))
     = js w ++ [(notificationSubject dp, triggerPayload dp)].
Proof.
  unfold processMessage. simpl.
  destruct (_ && float_gt _ _).
  - destruct (Incr _ _ _) as [r1 res].
    destruct (3 <=? default 0 res); [|by left].
    destruct (publish_ok e); [by right|].
    simpl. destruct (publish_sent e); [by right|by left].
  - destruct (_ && float_le _ _); by left.
Qed.

Lemma alerts_for_same d w w' : js w' = js w -> alerts_for d w' = alerts_for d w.
Proof. unfold alerts_for. by intros ->. Qed.

Lemma alerts_for_snoc_same d w w' dp :
  DeviceID dp = d ->
  js w' = js w ++ [(notificationSubject dp, triggerPayload dp)] ->
  alerts_for d w'
  = alerts_for d w ++ [(notificationSubject dp, triggerPayload dp)].
Proof.
  intros Hd Hjs. unfold alerts_for. rewrite Hjs, List.filter_app. simpl.
  apply String.eqb_eq in Hd. by rewrite Hd.
Qed.

Lemma step_other_device e w dp d :
  DeviceID dp <> d ->
  alerts_for d (fst (processMessage e w (deliver dp))) = alerts_for d w.
Proof.
  intros Hd. unfold alerts_for.
  destruct (step_published e w dp) as [-> | ->]; [done|].
  rewrite List.filter_app. simpl.
  apply String.eqb_neq in Hd. rewrite Hd. by rewrite app_nil_r.
Qed.

(** A reading that is not of the monitored sensor of device [d] changes
    neither the counter of [d] nor the alerts published for [d]. *)
Lemma step_unmonitored e w dp d :
  monitoredb d dp = false ->
  rdb (fst (processMessage e w (deliver dp))) !! keyOf d "temp1"
  = rdb w !! keyOf d "temp1"
  /\ alerts_for d (fst (processMessage e w (deliver dp))) = alerts_for d w.
Proof.
  intros Hm.
  destruct (String.eqb_spec (SensorName dp) "temp1") as [Hs|Hs].
  - assert (DeviceID dp <> d) as Hd.
    { intros Hd. unfold monitoredb in Hm.
      apply String.eqb_eq in Hd, Hs. by rewrite Hd, Hs in Hm. }
    split; [|by apply step_other_device].
    apply step_other_key. unfold redisKey. rewrite Hs.
    intros Hk. by apply keyOf_inj in Hk.
  - by rewrite step_other_sensor.
Qed.

(** *** The passage of time *)

Lemma lookup_idle seconds (r : gmap string Entry) k :
  idle seconds r !! k = r !! k ≫= age seconds.
Proof. unfold idle. apply lookup_omap. Qed.

Lemma lookup_idle_None seconds (r : gmap string Entry) k :
  r !! k = None -> idle seconds r !! k = None.
Proof. intros H. by rewrite lookup_idle, H. Qed.

(** A key that is there after a while was there before, with the same
    count. *)
Lemma lookup_idle_Some seconds (r : gmap string Entry) k en :
  idle seconds r !! k = Some en ->
  exists en0, r !! k = Some en0 /\ count en0 = count en.
Proof.
  rewrite lookup_idle. destruct (r !! k) as [en0|]; [|done]. simpl.
  unfold age. destruct (ttl en0) as [t|].
  - destruct (t <=? seconds); [done|]. intros [= <-]. by exists en0.
  - intros [= <-]. by exists en0.
Qed.

(** A key within its idle window stays, with what is left of the window. *)
Lemma lookup_idle_within seconds (r : gmap string Entry) k c t :
  r !! k = Some {| count := c; ttl := Some t |} -> seconds < t ->
  idle seconds r !! k = Some {| count := c; ttl := Some (t - seconds) |}.
Proof.
  intros H Hlt. rewrite lookup_idle, H. simpl. unfold age. simpl.
  by assert ((t <=? seconds) = false) as -> by (by apply Z.leb_gt).
Qed.

(** A key whose idle window has run out is gone. *)
Lemma lookup_idle_expired seconds (r : gmap string Entry) k c t :
  r !! k = Some {| count := c; ttl := Some t |} -> t <= seconds ->
  idle seconds r !! k = None.
Proof.
  intros H Hle. rewrite lookup_idle, H. simpl. unfold age. simpl.
  by assert ((t <=? seconds) = true) as -> by (by apply Z.leb_le).
Qed.

Lemma counter_pass seconds w k :
  counter (pass seconds w) k = counter w k \/ counter (pass seconds w) k = 0.
Proof.
  unfold counter, pass. simpl.
  destruct (idle seconds (rdb w) !! k) as [en|] eqn:Hk; [|by right].
  apply lookup_idle_Some in Hk as (en0 & -> & <-). by left.
Qed.

Lemma alerts_for_pass d seconds w : alerts_for d (pass seconds w) = alerts_for d w.
Proof. reflexivity. Qed.

(** *** Alerts along a run *)











(** What the readings of device [d] weigh: three for each alert published
    and one for each breaching reading the counter holds. *)
Lemma run_weight d feed : forall w,
  Forall (fun x => monitored d (snd x) -> operational (fst x) = true) feed ->
  armed_below_three w (keyOf d "temp1") ->
  3 * Z.of_nat (length (alerts_for d (run w feed)))
  <= 3 * Z.of_nat (length (alerts_for d w)) + counter w (keyOf d "temp1")
     + Z.of_nat (length (List.filter breach (readings_of d feed))).
Proof.
  induction feed as [|[e dp] feed IH]; intros w Hall Hinv.
  - rewrite run_nil. unfold armed_below_three in Hinv. simpl. lia.
  - apply Forall_cons in Hall as [Hop Hall]. simpl in Hop.
    rewrite run_cons. simpl fst. simpl snd.
    unfold armed_below_three in Hinv.
    assert (0 <= counter (pass (elapsed e) w) (keyOf d "temp1")
            <= counter w (keyOf d "temp1")) as Hpass
      by (destruct (counter_pass (elapsed e) w (keyOf d "temp1")); lia).
    unfold readings_of in *. simpl map. simpl List.filter.
    destruct (monitoredb d dp) eqn:Hmb.
    + apply monitoredb_spec in Hmb as Hmon. specialize (Hop Hmon).
      pose proof (monitored_key _ _ Hmon) as Hkey.
      destruct (operational_inv _ Hop) as (Hi & Hp & Hd).
      destruct Hmon as [Hdev Hs].
      simpl List.filter. destruct (breach dp) eqn:Hb.
      * simpl length.
        destruct (Z.eq_dec (counter (pass (elapsed e) w) (keyOf d "temp1")) 2)
          as [H2|H2].
        -- destruct (step_fire e (pass (elapsed e) w) dp Hop Hb)
             as [Hjs Hnone]; [by rewrite Hkey|].
           rewrite Hkey in Hnone.
           pose proof (alerts_for_snoc_same d _ _ dp Hdev Hjs) as Hal.
           rewrite alerts_for_pass in Hal.
           specialize (IH _ Hall (absent_armed _ _ Hnone)).
           rewrite Hal, length_app, (absent_counter _ _ Hnone) in IH.
           simpl length in IH. lia.
        -- destruct (step_arm e (pass (elapsed e) w) dp Hi Hb)
             as (Hjs & Hcnt & _); [rewrite Hkey; lia|].
           rewrite Hkey in Hcnt.
           assert (armed_below_three
                     (fst (processMessage e (pass (elapsed e) w) (deliver dp)))
                     (keyOf d "temp1")) as Hinv'
             by (unfold armed_below_three; lia).
           specialize (IH _ Hall Hinv').
           rewrite (alerts_for_same d _ _ Hjs), alerts_for_pass, Hcnt in IH.
           lia.
      * destruct (step_clear e (pass (elapsed e) w) dp Hd Hs Hb)
          as [Hjs Hnone].
        rewrite Hkey in Hnone.
        specialize (IH _ Hall (absent_armed _ _ Hnone)).
        rewrite (alerts_for_same d _ _ Hjs), alerts_for_pass,
          (absent_counter _ _ Hnone) in IH. lia.
    + destruct (step_unmonitored e (pass (elapsed e) w) dp d Hmb)
        as [Hrdb Hal].
      rewrite alerts_for_pass in Hal.
      assert (counter (fst (processMessage e (pass (elapsed e) w) (deliver dp)))
                (keyOf d "temp1")
              = counter (pass (elapsed e) w) (keyOf d "temp1")) as Hcnt
        by (unfold counter; by rewrite Hrdb).
      assert (armed_below_three
                (fst (processMessage e (pass (elapsed e) w) (deliver dp)))
                (keyOf d "temp1")) as Hinv'
        by (unfold armed_below_three; lia).
      specialize (IH _ Hall Hinv'). rewrite Hal, Hcnt in IH. lia.
Qed.


End DetectorRuns.

(** ** The detector's claims *)

Section DetectorClaims.
Import Analysis Detector.

(** processMessage reads nothing of a message but its payload. *)
Lemma processMessage_payload e w msg dp :
  Data msg = Some dp ->
  processMessage e w msg = processMessage e w (deliver dp).
Proof. intros H. unfold processMessage. by rewrite H. Qed.

(** The scenario of the specification: no alert after the first five
    readings, exactly one after the sixth. *)
Example scenario_five_readings : js (run start (take 5 scenario)) = [].
Proof. vm_compute. reflexivity. Qed.

Example scenario_six_readings :
  js (run start scenario)
  = [("notifications.orgA.machine-123",
      {| TriggerOrganizationID := "orgA"; TriggerDeviceID := "machine-123";
         TriggerSensorName := "temp1";
         Condition := "Consecutive Temp Threshold Breach" |})]
  /\ rdb (run start scenario) !! keyOf "machine-123" "temp1" = None.
Proof. vm_compute. split; reflexivity. Qed.

Example interleaved_readings :
  alerts_for "machine-123" (run start interleaved)
  = [("notifications.orgA.machine-123", triggerPayload (reading 95))]
  /\ alerts_for "machine-456" (run start interleaved) = [].
Proof. vm_compute. split; reflexivity. Qed.

(** Outside the conditions of C1: when the publish of the third breaching
    reading fails, no alert goes out and the counter stays at three; the
    fourth breaching reading takes it to four and publishes the alert. *)
Example publish_failure_defers_alert :
  let w3 := run start [(nominal, reading 85); (nominal, reading 90);
                       (broker_down, reading 95)] in
  js w3 = [] /\ counter w3 (keyOf "machine-123" "temp1") = 3
  /\ js (run w3 [(nominal, reading 95)])
     = [("notifications.orgA.machine-123", triggerPayload (reading 95))]
  /\ rdb (run w3 [(nominal, reading 95)]) !! keyOf "machine-123" "temp1"
     = None.
Proof. vm_compute. repeat split; reflexivity. Qed.

(** The idle window at work: a counter left alone for 300 seconds is gone,
    one read again within the window stands. *)
Example idle_expiry :
  counter (pass 300 (run start (take 2 scenario))) (keyOf "machine-123" "temp1")
  = 0
  /\ counter (pass 299 (run start (take 2 scenario)))
       (keyOf "machine-123" "temp1") = 2.
Proof. vm_compute. split; reflexivity. Qed.

(** In the deployment of the repository no stream is bound to
    notifications.>, so that the alert goes out and js.Publish returns an
    error: the counter is kept, and every further breaching reading sends the
    alert again. *)
Example unacknowledged_alerts_repeat :
  let w := run start (unacked_third ++ [(unacknowledged, reading 96)]) in
  length (js w) = 2%nat /\ counter w (keyOf "machine-123" "temp1") = 4.
Proof. vm_compute. split; reflexivity. Qed.




(** C2.  A reading of the monitored sensor at or below the threshold makes
    processMessage issue the delete of the counter of its device and sensor
    whatever the counter held, publish nothing and acknowledge; once the
    store has carried the delete out the counter is absent. *)
Theorem C2_non_breaching_reading_deletes_counter e w msg dp :
  Data msg = Some dp ->
  SensorName dp = "temp1" ->
  float_le (Value dp) threshold = true ->
  processMessage e w msg
  = ({| rdb := Del (del_ok e) (redisKey dp) (rdb w); js := js w |}, Ack)
  /\ (del_ok e = true ->
      rdb (fst (processMessage e w msg)) !! redisKey dp = None
      /\ counter (fst (processMessage e w msg)) (redisKey dp) = 0).
Proof.
  intros Hmsg Hs Hle.
  assert (processMessage e w msg
          = ({| rdb := Del (del_ok e) (redisKey dp) (rdb w); js := js w |},
             Ack)) as Heq.
  { unfold processMessage. rewrite Hmsg, Hs, float_gt_not_le, Hle. done. }
  split; [done|]. intros Hd. rewrite Heq. simpl. rewrite Hd. simpl.
  assert (delete (redisKey dp) (rdb w) !! redisKey dp = None) as Hnone
    by apply lookup_delete_eq.
  split; [done|]. unfold counter. simpl. by rewrite Hnone.
Qed.

Lemma C2_witness :
  SensorName (reading 75) = "temp1"
  /\ float_le (Value (reading 75)) threshold = true
  /\ processMessage nominal
    {| rdb := {[ keyOf "machine-123" "temp1" := {| count := 2; ttl := Some 300 |} ]};
       js := [] |}
    (deliver (reading 75))
  = ({| rdb := Del true (keyOf "machine-123" "temp1")
                 {[ keyOf "machine-123" "temp1"
                    := {| count := 2; ttl := Some 300 |} ]};
        js := [] |}, Ack).
Proof.
  split; [reflexivity|]. split; [reflexivity|].
  exact (proj1 (C2_non_breaching_reading_deletes_counter nominal
           {| rdb := {[ keyOf "machine-123" "temp1"
                        := {| count := 2; ttl := Some 300 |} ]};
              js := [] |}
           (deliver (reading 75)) (reading 75) eq_refl eq_refl eq_refl)).
Defined.

(** C3, as stated, fails: the third breaching reading in a row sends its
    alert, js.Publish returns an error for want of an acknowledgment, and the
    counter is kept at three although the store answers; the next breaching
    reading counts four and sends the alert again. *)
Lemma C3_counterexample :
  js (run start unacked_third)
  = [(notificationSubject (reading 95), triggerPayload (reading 95))]
  /\ del_ok unacknowledged = true
  /\ counter (run start unacked_third) (keyOf "machine-123" "temp1") = 3
  /\ counter (run start (unacked_third ++ [(nominal, reading 96)]))
       (keyOf "machine-123" "temp1") <> 1
  /\ counter (fst (processMessage unacknowledged (run start unacked_third)
                     (deliver (reading 96))))
       (keyOf "machine-123" "temp1") = 4.
Proof. vm_compute. repeat split; (reflexivity || discriminate). Qed.

(** C3, amended.  When processing a reading has published an alert that a
    stream acknowledged (js.Publish returned no error) and the store has
    carried out the delete that follows, the counter of the reading's device
    and sensor is absent, so that the next breaching reading for that key,
    however much later, counts 1 and publishes nothing. *)
Theorem C3_counter_absent_after_alert e w msg dp :
  Data msg = Some dp ->
  publish_ok e = true ->
  del_ok e = true ->
  js (fst (processMessage e w msg)) <> js w ->
  js (fst (processMessage e w msg))
  = js w ++ [(notificationSubject dp, triggerPayload dp)]
  /\ rdb (fst (processMessage e w msg)) !! redisKey dp = None
  /\ counter (fst (processMessage e w msg)) (redisKey dp) = 0
  /\ (forall e' msg' dp',
        Data msg' = Some dp' -> redisKey dp' = redisKey dp ->
        breach dp' = true -> incr_ok e' = true ->
        counter (fst (processMessage e'
                        (pass (elapsed e') (fst (processMessage e w msg)))
                        msg'))
          (redisKey dp) = 1
        /\ js (fst (processMessage e'
                      (pass (elapsed e') (fst (processMessage e w msg)))
                      msg'))
           = js (fst (processMessage e w msg))).
Proof.
  intros Hmsg Hp Hd Hjs.
  assert (js (fst (processMessage e w msg))
          = js w ++ [(notificationSubject dp, triggerPayload dp)]
          /\ rdb (fst (processMessage e w msg)) !! redisKey dp = None)
    as [Hpub Hnone].
  { revert Hjs. unfold processMessage. rewrite Hmsg.
    destruct (_ && float_gt _ _).
    - destruct (Incr _ _ _) as [r1 res].
      destruct (3 <=? default 0 res); [|done].
      rewrite Hp. simpl. rewrite Hd. simpl. intros _. split; [done|].
      apply lookup_delete_eq.
    - by destruct (_ && float_le _ _). }
  split; [done|]. split; [done|].
  split; [by apply absent_counter|].
  intros e' msg' dp' Hmsg' Hkey Hb Hi.
  rewrite (processMessage_payload e' _ msg' dp' Hmsg').
  rewrite <- Hkey in *.
  assert (rdb (pass (elapsed e') (fst (processMessage e w msg)))
            !! redisKey dp' = None) as Hnone'
    by (by apply lookup_idle_None).
  pose proof (absent_counter _ _ Hnone') as Hzero.
  destruct (step_arm e' (pass (elapsed e') (fst (processMessage e w msg)))
              dp' Hi Hb) as (Hjs' & Hcnt & _); [lia|].
  rewrite Hcnt, Hzero. done.
Qed.

Lemma C3_witness :
  counter (run start (take 6 scenario)) (keyOf "machine-123" "temp1") = 0
  /\ counter (run start (take 6 scenario ++ [(after 1000, reading 95)]))
       (keyOf "machine-123" "temp1") = 1.
Proof.
  pose proof (C3_counter_absent_after_alert nominal
                (run start (take 5 scenario)) (deliver (reading 95))
                (reading 95) eq_refl eq_refl eq_refl) as H.
  destruct H as (_ & _ & Hzero & Hnext).
  - vm_compute. discriminate.
  - split.
    + exact Hzero.
    + exact (proj1 (Hnext (after 1000) (deliver (reading 95)) (reading 95)
                      eq_refl eq_refl eq_refl eq_refl)).
Defined.

(** Whatever the world, a breaching reading whose increment fails is
    acknowledged, and nothing is published for it. *)
Lemma incr_failure_is_acknowledged e w msg dp :
  Data msg = Some dp -> breach dp = true -> incr_ok e = false ->
  snd (processMessage e w msg) = Ack
  /\ js (fst (processMessage e w msg)) = js w.
Proof.
  intros Hmsg Hb Hi. unfold processMessage. rewrite Hmsg.
  fold (breach dp). rewrite Hb. unfold Incr. rewrite Hi. simpl. done.
Qed.

(** The one path on which processMessage answers with a negative
    acknowledgment: a payload that does not decode. *)
Lemma malformed_payload_is_nak e w msg :
  Data msg = None -> processMessage e w msg = (w, Nak).
Proof. intros H. unfold processMessage. by rewrite H. Qed.

Lemma nak_only_for_malformed_payload e w msg :
  snd (processMessage e w msg) = Nak -> Data msg = None.
Proof.
  unfold processMessage. destruct (Data msg) as [dp|]; [|done].
  destruct (_ && float_gt _ _).
  - destruct (Incr _ _ _) as [r1 res].
    destruct (3 <=? default 0 res); [|done].
    by destruct (publish_ok e).
  - by destruct (_ && float_le _ _).
Qed.

(** C4.  A breaching reading processed while the counter store cannot be
    reached: the failed increment is passed over, the world is left as it
    was, and the message is acknowledged, not negatively acknowledged. *)
Theorem C4_store_failure_is_acknowledged :
  processMessage store_down start (deliver (reading 85)) = (start, Ack).
Proof. vm_compute. reflexivity. Qed.

End DetectorClaims.

(** ** Subjects and streams *)

Section Subjects.
Import Nats Tenancy.

Lemma tokens_nonempty s : tokens s <> [].
Proof.
  destruct s as [|c s]; simpl; [done|].
  destruct (Ascii.eqb c "."); [done|]. by destruct (tokens s).
Qed.

(** Splitting distributes over a separator. *)
Lemma tokens_app s t : tokens (s +:+ "." +:+ t) = tokens s ++ tokens t.
Proof.
  induction s as [|c s IH]; [done|].
  change (String c s +:+ "." +:+ t) with (String c (s +:+ "." +:+ t)).
  simpl tokens. rewrite IH.
  destruct (Ascii.eqb c "."); [done|].
  pose proof (tokens_nonempty s). by destruct (tokens s).
Qed.

Lemma tokens_dotless s : dotless s = true -> tokens s = [s].
Proof.
  induction s as [|c s IH]; [done|]. simpl.
  destruct (Ascii.eqb c "."); [done|]. simpl. intros H. by rewrite IH.
Qed.

Lemma tokens_org_pattern A :
  dotless A = true -> tokens ("data." +:+ A +:+ ".>") = ["data"; A; ">"].
Proof.
  intros HA.
  change ("data." +:+ A +:+ ".>") with ("data" +:+ "." +:+ (A +:+ "." +:+ ">")).
  by rewrite !tokens_app, (tokens_dotless A HA).
Qed.

Lemma tokens_subject (dp : Ingestion.DataPoint) :
  dotless (Ingestion.OrganizationID dp) = true ->
  exists rest,
    tokens (Ingestion.subject dp)
    = "data" :: Ingestion.OrganizationID dp :: rest.
Proof.
  intros HB. unfold Ingestion.subject.
  change ("data." +:+ ?x) with ("data" +:+ "." +:+ x).
  rewrite !tokens_app, (tokens_dotless _ HB). simpl. eauto.
Qed.

End Subjects.

(** ** Tenant isolation *)

Section TenantIsolation.
Import Nats Tenancy.

Lemma org_pattern_rejects A B rest :
  A <> B -> A <> "*" ->
  tokens_match ["data"; A; ">"] ("data" :: B :: rest) = false.
Proof.
  intros HAB Hstar. simpl.
  apply String.eqb_neq in HAB, Hstar. by rewrite HAB, Hstar.
Qed.

Lemma provisioned_stream_isolated A B :
  A <> B -> dotless A = true -> dotless B = true -> A <> "*" ->
  isolated_from (Management.orgStreamConfig A) B.
Proof.
  intros HAB HA HB Hstar dp Horg. subst B.
  unfold captures, Management.orgStreamConfig, Management.orgStreamSubjects.
  simpl. rewrite orb_false_r. unfold subject_matches.
  rewrite (tokens_org_pattern A HA).
  destruct (tokens_subject dp HB) as [rest ->].
  by apply org_pattern_rejects.
Qed.

(** A handler call that reports success leaves the organization's stream in
    the table, bound as [orgStreamConfig] says. *)
Lemma created_stream_binding ok streams org streams' r :
  Management.createOrganizationHandler ok streams (Some org) = (streams', r) ->
  Management.status r = StatusCreated ->
  streams' !! Management.orgStreamName (Management.ID org)
  = Some (Management.orgStreamConfig (Management.ID org)).
Proof.
  unfold Management.createOrganizationHandler.
  destruct (Management.validateOrganization org); [|by intros [= <- <-]].
  unfold AddStream. destruct ok; [|by intros [= <- <-]].
  simpl Name.
  destruct (streams !! Management.orgStreamName (Management.ID org))
    as [old|] eqn:Hold.
  - case_decide as Heq; [|by intros [= <- <-]].
    intros [= <- <-] _. by rewrite Hold, Heq.
  - intros [= <- <-] _. apply lookup_insert_eq.
Qed.

(** The stream the persistence service declares under organization orgA's
    stream name stores the readings of every organization. *)
Lemma persistence_stream_captures (dp : Ingestion.DataPoint) :
  captures Persistence.streamConfig (Ingestion.subject dp) = true.
Proof.
  unfold captures, Persistence.streamConfig. simpl. rewrite orb_false_r.
  unfold subject_matches, Ingestion.subject.
  change ("data." +:+ ?x) with ("data" +:+ "." +:+ x).
  rewrite tokens_app.
  change (tokens "data.>") with ["data"; ">"]. change (tokens "data") with ["data"].
  simpl app.
  pose proof (tokens_nonempty
    (Ingestion.OrganizationID dp +:+ "." +:+ Ingestion.DeviceID dp
     +:+ "." +:+ Ingestion.SensorName dp)) as Hne.
  destruct (tokens _) as [|t ts]; [done|]. reflexivity.
Qed.

(** An identifier with a dot in it, or the wildcard, reaches into another
    organization's subjects. *)
Example dotted_identifier_overlaps :
  captures (Management.orgStreamConfig "acme")
    (Ingestion.subject
       {| Ingestion.OrganizationID := "acme.eu"; Ingestion.DeviceID := "d1";
          Ingestion.SensorName := "temp1"; Ingestion.Value := float_of_Z 1;
          Ingestion.Timestamp := 1 |}) = true.
Proof. reflexivity. Qed.

Example wildcard_identifier_overlaps :
  captures (Management.orgStreamConfig "*") (Ingestion.subject orgB_reading)
  = true.
Proof. reflexivity. Qed.

(** C5, as stated, fails: the stream the persistence service binds, declared
    under orgA's stream name, is bound to data.> and stores a reading
    published for orgB. *)
Lemma C5_counterexample :
  "orgA" <> "orgB"
  /\ Name Persistence.streamConfig = Management.orgStreamName "orgA"
  /\ Subjects Persistence.streamConfig = ["data.>"]
  /\ ~ isolated_from Persistence.streamConfig "orgB".
Proof.
  split; [done|]. split; [reflexivity|]. split; [reflexivity|].
  intros H. specialize (H orgB_reading eq_refl). vm_compute in H. done.
Qed.

(** C5, amended.  For distinct organization identifiers A and B that are
    single subject tokens, A not being the wildcard, the stream
    createOrganizationHandler provisions for A is bound exactly to
    data.A.> and stores no reading published for B.  The stream of the
    persistence service, bound to data.>, stores the readings of every
    organization. *)
Theorem C5_provisioned_streams_are_disjoint (A B : string) :
  A <> B -> dotless A = true -> dotless B = true -> A <> "*" ->
  Subjects (Management.orgStreamConfig A) = ["data." +:+ A +:+ ".>"]
  /\ isolated_from (Management.orgStreamConfig A) B
  /\ (forall ok streams org streams' r,
        Management.ID org = A ->
        Management.createOrganizationHandler ok streams (Some org)
        = (streams', r) ->
        Management.status r = StatusCreated ->
        streams' !! Management.orgStreamName A
        = Some (Management.orgStreamConfig A))
  /\ (forall dp : Ingestion.DataPoint,
        captures Persistence.streamConfig (Ingestion.subject dp) = true).
Proof.
  intros HAB HA HB Hstar. split; [reflexivity|].
  split; [by apply provisioned_stream_isolated|].
  split; [|apply persistence_stream_captures].
  intros ok streams org streams' r <-. apply created_stream_binding.
Qed.

Lemma C5_witness :
  isolated_from (Management.orgStreamConfig "orgA") "orgB".
Proof.
  refine (proj1 (proj2 (C5_provisioned_streams_are_disjoint "orgA" "orgB"
                          _ eq_refl eq_refl _))); done.
Defined.

End TenantIsolation.

(** ** The credential issuer *)

Section CredentialIssuer.
Import Management.

Lemma NewUserClaims_Some subject :
  subject <> "" ->
  Jwt.NewUserClaims subject
  = Some {| Jwt.Subject := subject;
            Jwt.Permissions :=
              {| Jwt.Pub := {| Jwt.Allow := []; Jwt.Deny := [] |};
                 Jwt.Sub := {| Jwt.Allow := []; Jwt.Deny := [] |} |};
            Jwt.Expires := 0;
            Jwt.NotBefore := 0 |}.
Proof.
  intros H. unfold Jwt.NewUserClaims. apply String.eqb_neq in H. by rewrite H.
Qed.

Lemma NewUserClaims_None subject :
  Jwt.NewUserClaims subject = None <-> subject = "".
Proof.
  unfold Jwt.NewUserClaims.
  destruct (String.eqb_spec subject ""); split; done.
Qed.

(** The claims a registration builds, for a device identifier that is not
    empty. *)
Lemma registrationClaims_Some reg deviceID :
  deviceID <> "" ->
  registrationClaims reg deviceID
  = Some {| Jwt.Subject := deviceID;
            Jwt.Permissions :=
              {| Jwt.Pub :=
                   {| Jwt.Allow :=
                        [devicePattern (OrganizationID reg) deviceID];
                      Jwt.Deny := [] |};
                 Jwt.Sub := {| Jwt.Allow := []; Jwt.Deny := [] |} |};
            Jwt.Expires := 0;
            Jwt.NotBefore := 0 |}.
Proof.
  intros H. unfold registrationClaims. by rewrite (NewUserClaims_Some _ H).
Qed.

Lemma sasClaims_Some now1 now2 orgID deviceID :
  deviceID <> "" ->
  sasClaims now1 now2 orgID deviceID
  = Some {| Jwt.Subject := deviceID;
            Jwt.Permissions :=
              {| Jwt.Pub :=
                   {| Jwt.Allow := [devicePattern orgID deviceID];
                      Jwt.Deny := [] |};
                 Jwt.Sub := {| Jwt.Allow := []; Jwt.Deny := [] |} |};
            Jwt.Expires := now1 + 12 * 3600;
            Jwt.NotBefore := now2 |}.
Proof.
  intros H. unfold sasClaims. by rewrite (NewUserClaims_Some _ H).
Qed.

Lemma Encode_Some ok pair c token :
  Jwt.Encode ok pair c = Some token ->
  Jwt.payload token = c /\ pair = Some (Jwt.signer token)
  /\ Jwt.kind (Jwt.signer token) = Jwt.AccountKey
  /\ Jwt.user_key_shape (Jwt.Subject c) = true /\ ok = true.
Proof.
  unfold Jwt.Encode.
  destruct (Jwt.user_key_shape (Jwt.Subject c)); [|done].
  destruct ok; [|done]. simpl.
  destruct pair as [kp|]; [|done].
  destruct (Jwt.kind kp) eqn:Hk; try done. by intros [= <-].
Qed.

Lemma Encode_without_key ok c : Jwt.Encode ok None c = None.
Proof. unfold Jwt.Encode. by destruct (_ && _). Qed.

(** A UUID is not empty and does not look like an nkey: it begins with a
    hexadecimal digit. *)
Lemma uuid_not_empty s : Validator.uuid s = true -> s <> "".
Proof. intros H ->. discriminate H. Qed.

Lemma uuid_no_user_key s :
  Validator.uuid s = true -> Jwt.user_key_shape s = false.
Proof.
  destruct s as [|c s]; [done|]. unfold Validator.uuid. simpl.
  intros H. apply andb_prop in H as [Hc _].
  unfold Jwt.user_key_shape.
  destruct (Ascii.eqb_spec c "U"%char) as [->|]; [discriminate Hc|done].
Qed.

(** Claims whose subject is a UUID are refused by the encoding, whatever the
    key. *)
Lemma Encode_uuid_subject ok pair c :
  Validator.uuid (Jwt.Subject c) = true -> Jwt.Encode ok pair c = None.
Proof.
  intros H. unfold Jwt.Encode. by rewrite (uuid_no_user_key _ H).
Qed.

(** A valid registration with a device identifier in UUID form is answered
    with an internal server error, whatever the signing key. *)
Lemma registration_of_uuid_fails g deviceID ok reg :
  Validator.uuid deviceID = true ->
  validateRegistration reg = [] ->
  registerDeviceHandler g deviceID ok (Some reg)
  = Returns (httpError "Failed to register device" StatusInternalServerError).
Proof.
  intros Hu Hv. unfold registerDeviceHandler. rewrite Hv.
  rewrite (registrationClaims_Some _ _ (uuid_not_empty _ Hu)).
  by rewrite Encode_uuid_subject.
Qed.

(** C6.  For every registration that passes validation, the claims
    registerDeviceHandler builds for the new device and hands to the encoding
    grant publishing on data.<organization_id>.<device_id>.> and on nothing
    else, deny nothing and list no subscribe permission; the token the
    handler returns, when the encoding succeeds, is the token over exactly
    these claims.  GenerateSASToken builds claims with the same grant. *)
Theorem C6_token_capability_is_device_pattern g deviceID ok reg :
  validateRegistration reg = [] ->
  deviceID <> "" ->
  exists claims,
    registrationClaims reg deviceID = Some claims
    /\ Jwt.Subject claims = deviceID
    /\ Jwt.Allow (Jwt.Pub (Jwt.Permissions claims))
       = ["data." +:+ OrganizationID reg +:+ "." +:+ deviceID +:+ ".>"]
    /\ Jwt.Deny (Jwt.Pub (Jwt.Permissions claims)) = []
    /\ Jwt.Allow (Jwt.Sub (Jwt.Permissions claims)) = []
    /\ Jwt.Deny (Jwt.Sub (Jwt.Permissions claims)) = []
    /\ registerDeviceHandler g deviceID ok (Some reg)
       = Returns
           match Jwt.Encode ok (signingKey g) claims with
           | Some token =>
               {| status := StatusCreated;
                  body := Registered deviceID token |}
           | None =>
               httpError "Failed to register device"
                 StatusInternalServerError
           end
    /\ (forall token,
          Jwt.Encode ok (signingKey g) claims = Some token ->
          Jwt.payload token = claims)
    /\ (forall now1 now2,
          Jwt.Permissions <$> sasClaims now1 now2 (OrganizationID reg) deviceID
          = Some (Jwt.Permissions claims)).
Proof.
  intros Hv Hid. eexists. split; [by apply registrationClaims_Some|].
  simpl. repeat split; try done.
  - unfold registerDeviceHandler.
    rewrite Hv, (registrationClaims_Some _ _ Hid).
    by destruct (Jwt.Encode _ _ _).
  - intros token H. by apply Encode_Some in H as [? _].
  - intros now1 now2. by rewrite (sasClaims_Some _ _ _ _ Hid).
Qed.

Lemma C6_witness :
  exists claims,
    registrationClaims Samples.registration Samples.deviceID = Some claims
    /\ Jwt.Subject claims = Samples.deviceID
    /\ Jwt.Allow (Jwt.Pub (Jwt.Permissions claims))
       = ["data." +:+ OrganizationID Samples.registration +:+ "."
          +:+ Samples.deviceID +:+ ".>"]
    /\ Jwt.Deny (Jwt.Pub (Jwt.Permissions claims)) = []
    /\ Jwt.Allow (Jwt.Sub (Jwt.Permissions claims)) = []
    /\ Jwt.Deny (Jwt.Sub (Jwt.Permissions claims)) = []
    /\ registerDeviceHandler {| signingKey := None |} Samples.deviceID true
         (Some Samples.registration)
       = Returns
           match Jwt.Encode true None claims with
           | Some token =>
               {| status := StatusCreated;
                  body := Registered Samples.deviceID token |}
           | None =>
               httpError "Failed to register device"
                 StatusInternalServerError
           end
    /\ (forall token,
          Jwt.Encode true None claims = Some token ->
          Jwt.payload token = claims)
    /\ (forall now1 now2,
          Jwt.Permissions
            <$> sasClaims now1 now2 (OrganizationID Samples.registration)
                  Samples.deviceID
          = Some (Jwt.Permissions claims)).
Proof.
  apply (C6_token_capability_is_device_pattern {| signingKey := None |}
           Samples.deviceID true Samples.registration eq_refl).
  discriminate.
Defined.

(** Whatever the request, the claims a registration builds carry the zero
    expiry, that is, none; those GenerateSASToken builds expire twelve hours
    after the first clock reading. *)
Lemma registration_claims_never_expire reg deviceID claims :
  registrationClaims reg deviceID = Some claims -> Jwt.Expires claims = 0.
Proof.
  unfold registrationClaims.
  destruct (Jwt.NewUserClaims deviceID) as [c|] eqn:Hc; [|done].
  intros [= <-]. unfold Jwt.NewUserClaims in Hc.
  destruct (String.eqb deviceID ""); [done|]. by injection Hc as <-.
Qed.





(** The claims the registration of the sample device builds carry the zero
    expiry, where those GenerateSASToken builds for the same organization and
    device expire twelve hours after the clock reading. *)
Example registration_claims_at_sample :
  exists claims sas,
    registrationClaims Samples.registration Samples.deviceID = Some claims
    /\ Jwt.Expires claims = 0
    /\ sasClaims 1672531200 1672531200
         (OrganizationID Samples.registration) Samples.deviceID = Some sas
    /\ Jwt.Expires sas = 1672531200 + 43200.
Proof. do 2 eexists. repeat split; reflexivity. Qed.

(** Startup stops when no key pair can be created. *)
Lemma startup_without_key_is_fatal connect_ok jetstream_ok :
  main connect_ok jetstream_ok None = Fatal.
Proof. by destruct connect_ok, jetstream_ok. Qed.

(** A service that has started holds no signing key, and every valid
    registration is answered with an internal server error. *)
Lemma serving_has_no_key connect_ok jetstream_ok createUser g :
  main connect_ok jetstream_ok createUser = Serving g ->
  signingKey g = None.
Proof.
  unfold main. destruct connect_ok, jetstream_ok, createUser; simpl;
    try done. by intros [= <-].
Qed.

Lemma registration_fails_after_startup
  connect_ok jetstream_ok createUser g deviceID ok reg :
  main connect_ok jetstream_ok createUser = Serving g ->
  validateRegistration reg = [] ->
  deviceID <> "" ->
  registerDeviceHandler g deviceID ok (Some reg)
  = Returns (httpError "Failed to register device" StatusInternalServerError).
Proof.
  intros Hmain Hv Hid. apply serving_has_no_key in Hmain.
  unfold registerDeviceHandler.
  by rewrite Hv, (registrationClaims_Some _ _ Hid), Hmain, Encode_without_key.
Qed.

(** C8.  Startup with a key pair created goes on to serve requests with the
    signing key unset, and a valid registration is then answered with status
    500: the missing signing key shows as an error of the request, not as a
    failure of startup. *)
Theorem C8_missing_signing_key_fails_per_request :
  main true true (Some Samples.key) = Serving {| signingKey := None |}
  /\ validateRegistration Samples.registration = []
  /\ registerDeviceHandler {| signingKey := None |} Samples.deviceID true
       (Some Samples.registration)
     = Returns (httpError "Failed to register device"
                  StatusInternalServerError).
Proof. repeat split; reflexivity. Qed.

End CredentialIssuer.

(** ** The tenant provisioner *)

Section TenantProvisioner.
Import Management Provisioning.

(** Adding a stream that is there already, with the same configuration,
    succeeds and changes nothing. *)
Lemma AddStream_existing cfg (streams : gmap string Nats.StreamConfig) :
  streams !! Nats.Name cfg = Some cfg ->
  Nats.AddStream true cfg streams = (streams, Some cfg).
Proof.
  intros H. unfold Nats.AddStream. rewrite H. by rewrite decide_True.
Qed.

Lemma reprovision_existing org (streams : gmap string Nats.StreamConfig) :
  validateOrganization org = [] ->
  streams !! orgStreamName (ID org) = Some (orgStreamConfig (ID org)) ->
  createOrganizationHandler true streams (Some org) = (streams, created org).
Proof.
  intros Hv Hs. unfold createOrganizationHandler. rewrite Hv.
  by rewrite AddStream_existing.
Qed.

Lemma created_inv ok streams org streams' r :
  createOrganizationHandler ok streams (Some org) = (streams', r) ->
  status r = StatusCreated ->
  validateOrganization org = [] /\ r = created org.
Proof.
  unfold createOrganizationHandler.
  destruct (validateOrganization org); [|by intros [= <- <-]].
  destruct (Nats.AddStream _ _ _) as [s' [c|]]; [|by intros [= <- <-]].
  by intros [= <- <-].
Qed.

(** Provisioning twice: the second call answers as the first did and leaves
    the stream table as the first call left it. *)
Lemma provision_twice ok org streams0 streams1 r1 :
  createOrganizationHandler ok streams0 (Some org) = (streams1, r1) ->
  status r1 = StatusCreated ->
  createOrganizationHandler true streams1 (Some org) = (streams1, r1).
Proof.
  intros H1 Hst.
  destruct (created_inv _ _ _ _ _ H1 Hst) as [Hv ->].
  apply reprovision_existing; [done|].
  by apply (created_stream_binding ok streams0 org streams1 (created org)).
Qed.

(** C9.  Provisioning an organization whose stream exists under its
    deterministic name with the same subject binding, the broker answering,
    returns the success response (201 Created) and leaves the stream table,
    and with it the existing stream, unchanged. *)
Theorem C9_reprovisioning_is_idempotent
  org (streams : gmap string Nats.StreamConfig) :
  validateOrganization org = [] ->
  streams !! orgStreamName (ID org) = Some (orgStreamConfig (ID org)) ->
  createOrganizationHandler true streams (Some org) = (streams, created org)
  /\ status (created org) = StatusCreated
  /\ fst (createOrganizationHandler true streams (Some org))
       !! orgStreamName (ID org)
     = Some (orgStreamConfig (ID org)).
Proof.
  intros Hv Hs. rewrite (reprovision_existing org streams Hv Hs).
  repeat split; done.
Qed.

Example first_provisioning :
  createOrganizationHandler true ∅ (Some Samples.orgA)
  = (Samples.provisioned, created Samples.orgA).
Proof. reflexivity. Qed.

(** Outside the conditions of C9: where the persistence service has declared
    its stream under orgA's stream name first, the binding differs and the
    provisioning of orgA is refused. *)
Example provisioning_after_persistence :
  createOrganizationHandler true (Persistence.declareStream true ∅)
    (Some Samples.orgA)
  = (Persistence.declareStream true ∅,
     httpError "Failed to create organization stream"
       StatusInternalServerError).
Proof. reflexivity. Qed.

Lemma C9_witness :
  createOrganizationHandler true Samples.provisioned (Some Samples.orgA)
  = (Samples.provisioned, created Samples.orgA).
Proof.
  exact (proj1 (C9_reprovisioning_is_idempotent Samples.orgA
                  Samples.provisioned eq_refl
                  (lookup_insert_eq (M := gmap string) ∅
                     (orgStreamName "orgA") (orgStreamConfig "orgA")))).
Defined.

End TenantProvisioner.

(** ** The ingestion boundary *)

Section IngestionBoundary.
Import Ingestion.

Lemma failing_cons name (ok : bool) checks :
  Validator.failing ((name, ok) :: checks)
  = if ok then Validator.failing checks
    else name :: Validator.failing checks.
Proof. unfold Validator.failing. simpl. by destruct ok. Qed.

(** A zero value or a zero timestamp is reported by the validation. *)
Lemma zero_field_fails_validation dp :
  float_is_zero (Value dp) = true \/ Timestamp dp = 0 ->
  "Value" ∈ validateDataPoint dp \/ "Timestamp" ∈ validateDataPoint dp.
Proof.
  intros H. unfold validateDataPoint. rewrite !failing_cons.
  assert (Validator.required_float (Value dp) = false
          \/ Validator.required_int (Timestamp dp) = false) as Hreq.
  { unfold Validator.required_float, Validator.required_int.
    destruct H as [-> | ->]; auto. }
  destruct (Validator.required_string (OrganizationID dp)),
           (Validator.required_string (DeviceID dp)),
           (Validator.required_string (SensorName dp)),
           (Validator.required_float (Value dp)),
           (Validator.required_int (Timestamp dp));
    destruct Hreq as [Hreq|Hreq]; try discriminate Hreq;
    rewrite ?elem_of_cons; auto 8.
Qed.

(** C10.  A POST request whose body decodes to a reading with value 0 or
    timestamp 0 is answered with status 400 and the validation error that
    names the field, and nothing is published for it, whatever the other
    fields are. *)
Theorem C10_zero_reading_is_rejected publish_ok js r dp :
  Method r = "POST" ->
  Payload r = Some dp ->
  Qeq (Value dp) (float_of_Z 0) \/ Timestamp dp = 0 ->
  fst (ingestHandler publish_ok js r) = js
  /\ status (snd (ingestHandler publish_ok js r)) = StatusBadRequest
  /\ body (snd (ingestHandler publish_ok js r))
     = ValidationError (validateDataPoint dp)
  /\ ("Value" ∈ validateDataPoint dp \/ "Timestamp" ∈ validateDataPoint dp).
Proof.
  intros Hm Hp Hz.
  assert ("Value" ∈ validateDataPoint dp \/ "Timestamp" ∈ validateDataPoint dp)
    as Hfail.
  { apply zero_field_fails_validation.
    destruct Hz as [Hz|Hz]; [left|by right].
    by apply float_is_zero_spec. }
  unfold ingestHandler. rewrite Hm, Hp. simpl.
  destruct (validateDataPoint dp) as [|f fs] eqn:Hv.
  - destruct Hfail as [Hf|Hf]; by apply elem_of_nil in Hf.
  - simpl. auto.
Qed.

Lemma C10_witness :
  fst (ingestHandler true []
         {| Method := "POST"; Payload := Some Samples.zero_value |}) = []
  /\ status (snd (ingestHandler true []
         {| Method := "POST"; Payload := Some Samples.zero_value |}))
     = StatusBadRequest
  /\ body (snd (ingestHandler true []
         {| Method := "POST"; Payload := Some Samples.zero_value |}))
     = ValidationError (validateDataPoint Samples.zero_value)
  /\ ("Value" ∈ validateDataPoint Samples.zero_value
      \/ "Timestamp" ∈ validateDataPoint Samples.zero_value).
Proof.
  exact (C10_zero_reading_is_rejected true []
           {| Method := "POST"; Payload := Some Samples.zero_value |}
           Samples.zero_value eq_refl eq_refl
           (or_introl (Qeq_refl _))).
Defined.

Example zero_value_rejected :
  ingestHandler true []
    {| Method := "POST"; Payload := Some Samples.zero_value |}
  = ([], {| status := 400; body := ValidationError ["Value"] |}).
Proof. reflexivity. Qed.

Example zero_timestamp_rejected :
  ingestHandler true []
    {| Method := "POST"; Payload := Some Samples.zero_timestamp |}
  = ([], {| status := 400; body := ValidationError ["Timestamp"] |}).
Proof. reflexivity. Qed.

(** A request that is not a POST is turned away before its body is read. *)
Lemma non_post_is_not_allowed publish_ok js r :
  Method r <> "POST" ->
  ingestHandler publish_ok js r
  = (js, httpError "Only POST method is supported" StatusMethodNotAllowed).
Proof.
  intros H. unfold ingestHandler.
  apply String.eqb_neq in H. by rewrite H.
Qed.

End IngestionBoundary.

(** * Further properties of the services *)

(** ** processMessage, one message at a time *)

Section ProcessMessage.
Import Analysis Detector Further.

(** What Incr answers, in terms of the counter it moves. *)
Lemma Incr_counter (w : World) key :
  counter w key <> maxInt64 ->
  exists r1,
    Incr true key (rdb w) = (r1, Some (counter w key + 1))
    /\ (count <$> r1 !! key) = Some (counter w key + 1)
    /\ forall k, k <> key -> r1 !! k = rdb w !! k.
Proof.
  intros Hmax. unfold Incr, counter in *.
  destruct (rdb w !! key) as [en|] eqn:Hk.
  - apply Z.eqb_neq in Hmax. rewrite Hmax. eexists. split; [done|].
    split; [by rewrite lookup_insert_eq|].
    intros k Hne. by apply lookup_insert_ne.
  - eexists. split; [done|]. split; [by rewrite lookup_insert_eq|].
    intros k Hne. by apply lookup_insert_ne.
Qed.

Lemma counter_of_lookup (w : World) key c :
  (count <$> rdb w !! key) = Some c -> counter w key = c.
Proof. unfold counter. destruct (rdb w !! key); simpl; congruence. Qed.

(** A published alert comes from a breaching reading. *)
Lemma step_published_breach e w msg :
  js (fst (processMessage e w msg)) = js w
  \/ exists dp,
       Data msg = Some dp /\ breach dp = true
       /\ js (fst (processMessage e w msg))
          = js w ++ [(notificationSubject dp, triggerPayload dp)].
Proof.
  unfold processMessage. destruct (Data msg) as [dp|]; [|by left].
  fold (breach dp). destruct (breach dp) eqn:Hb.
  - destruct (Incr _ _ _) as [r1 res].
    destruct (3 <=? default 0 res); [|by left].
    destruct (publish_ok e); [right; by exists dp|]. simpl.
    destruct (publish_sent e); [right; by exists dp|by left].
  - destruct (_ && float_le _ _); by left.
Qed.

(** X1.  processMessage answers a message with a negative acknowledgment
    exactly when its payload does not decode, and then leaves the counter
    store and the published alerts as they were; every other message is
    acknowledged. *)
Theorem X1_nak_iff_payload_undecodable e w msg :
  (snd (processMessage e w msg) = Nak <-> Data msg = None)
  /\ (snd (processMessage e w msg) = Ack <-> Data msg <> None)
  /\ (snd (processMessage e w msg) = Nak -> fst (processMessage e w msg) = w).
Proof.
  assert (snd (processMessage e w msg) = Nak <-> Data msg = None) as Hnak.
  { split; [apply nak_only_for_malformed_payload|].
    intros H. by rewrite malformed_payload_is_nak. }
  split; [done|]. split.
  - split.
    + intros Hack Hnone. apply Hnak in Hnone. congruence.
    + intros Hsome. destruct (snd (processMessage e w msg)) eqn:Hr; [done|].
      exfalso. apply Hsome. by apply Hnak.
  - intros Hr. apply Hnak in Hr. by rewrite malformed_payload_is_nak.
Qed.

(** X2.  Processing a reading leaves the counter under every key but the
    reading's own as it was, and changes the alerts of no device but the
    reading's. *)
Theorem X2_other_keys_and_devices_untouched e w msg dp :
  Data msg = Some dp ->
  (forall k, k <> redisKey dp ->
     rdb (fst (processMessage e w msg)) !! k = rdb w !! k)
  /\ (forall d, d <> DeviceID dp ->
        alerts_for d (fst (processMessage e w msg)) = alerts_for d w).
Proof.
  intros Hmsg. rewrite (processMessage_payload _ _ _ _ Hmsg). split.
  - intros k Hk. by apply step_other_key.
  - intros d Hd. by apply step_other_device.
Qed.

Lemma X2_witness :
  (forall k, k <> redisKey (other_device 99) ->
     rdb (fst (processMessage nominal (run start (take 2 scenario))
                 (deliver (other_device 99)))) !! k
     = rdb (run start (take 2 scenario)) !! k)
  /\ (forall d, d <> DeviceID (other_device 99) ->
        alerts_for d (fst (processMessage nominal (run start (take 2 scenario))
                             (deliver (other_device 99))))
        = alerts_for d (run start (take 2 scenario))).
Proof.
  exact (X2_other_keys_and_devices_untouched nominal
           (run start (take 2 scenario)) (deliver (other_device 99))
           (other_device 99) eq_refl).
Defined.

(** X3.  Whatever the environment, an alert reaches its subject only for a
    breaching reading whose increment succeeded and took the count to three
    or more, the publish being acknowledged or at least sent; what goes out
    is the one alert of that reading. *)
Theorem X3_alert_only_on_breach e w msg :
  js (fst (processMessage e w msg)) <> js w ->
  exists dp,
    Data msg = Some dp /\ breach dp = true
    /\ incr_ok e = true /\ (publish_ok e || publish_sent e) = true
    /\ 3 <= counter w (redisKey dp) + 1
    /\ js (fst (processMessage e w msg))
       = js w ++ [(notificationSubject dp, triggerPayload dp)].
Proof.
  unfold processMessage. destruct (Data msg) as [dp|]; [|done].
  fold (breach dp). destruct (breach dp) eqn:Hb.
  - unfold Incr. destruct (incr_ok e) eqn:Hi; [|done].
    unfold counter.
    destruct (rdb w !! redisKey dp) as [en|] eqn:Hk.
    + destruct (count en =? maxInt64); [done|]. simpl.
      destruct (3 <=? count en + 1) eqn:H3; [|done].
      apply Z.leb_le in H3.
      destruct (publish_ok e) eqn:Hp; simpl.
      * intros _. exists dp. rewrite Hk. by repeat split.
      * destruct (publish_sent e) eqn:Hs; [|done]. intros _.
        exists dp. rewrite Hk. by repeat split.
    + done.
  - by destruct (_ && float_le _ _).
Qed.

Lemma X3_witness :
  exists dp,
    Data (deliver (reading 95)) = Some dp /\ breach dp = true
    /\ incr_ok unacknowledged = true
    /\ (publish_ok unacknowledged || publish_sent unacknowledged) = true
    /\ 3 <= counter (run start (take 2 scenario)) (redisKey dp) + 1
    /\ js (fst (processMessage unacknowledged (run start (take 2 scenario))
                  (deliver (reading 95))))
       = js (run start (take 2 scenario))
         ++ [(notificationSubject dp, triggerPayload dp)].
Proof.
  apply (X3_alert_only_on_breach unacknowledged (run start (take 2 scenario))
           (deliver (reading 95))).
  vm_compute. discriminate.
Defined.

(** X4.  While the store and the broker answer, a breaching reading that
    finds the counter at two or more (as it is left when an earlier publish
    failed) publishes exactly one alert, deletes the counter and is
    acknowledged. *)
Theorem X4_alert_at_three_or_more e w msg dp :
  operational e = true -> Data msg = Some dp -> breach dp = true ->
  3 <= counter w (redisKey dp) + 1 ->
  counter w (redisKey dp) <> maxInt64 ->
  js (fst (processMessage e w msg))
  = js w ++ [(notificationSubject dp, triggerPayload dp)]
  /\ rdb (fst (processMessage e w msg)) !! redisKey dp = None
  /\ snd (processMessage e w msg) = Ack.
Proof.
  intros Hop Hmsg Hb H3 Hmax.
  apply operational_inv in Hop as (Hi & Hp & Hd).
  destruct (Incr_counter w (redisKey dp) Hmax) as (r1 & HI & _ & _).
  unfold processMessage. rewrite Hmsg. fold (breach dp). rewrite Hb, Hi, HI.
  simpl. apply Z.leb_le in H3. rewrite H3, Hp, Hd. simpl.
  split; [done|]. split; [apply lookup_delete_eq|done].
Qed.

Lemma X4_witness :
  let w3 := run start [(nominal, reading 85); (nominal, reading 90);
                       (broker_down, reading 95)] in
  js (fst (processMessage nominal w3 (deliver (reading 95))))
  = js w3 ++ [(notificationSubject (reading 95), triggerPayload (reading 95))]
  /\ rdb (fst (processMessage nominal w3 (deliver (reading 95))))
       !! redisKey (reading 95) = None
  /\ snd (processMessage nominal w3 (deliver (reading 95))) = Ack.
Proof.
  apply (X4_alert_at_three_or_more nominal _ (deliver (reading 95))
           (reading 95) eq_refl eq_refl eq_refl);
    vm_compute; discriminate.
Defined.

(** X5.  When js.Publish returns an error, a breaching reading is counted
    all the same: the counter moves up by one and stays in the store, and the
    message is acknowledged.  The alert has reached its subject exactly when
    the count was at three or more and the message was sent before the error
    came back. *)
Theorem X5_publish_failure_keeps_counter e w msg dp :
  Data msg = Some dp -> breach dp = true ->
  incr_ok e = true -> publish_ok e = false ->
  counter w (redisKey dp) <> maxInt64 ->
  js (fst (processMessage e w msg))
  = (if (3 <=? counter w (redisKey dp) + 1) && publish_sent e
     then js w ++ [(notificationSubject dp, triggerPayload dp)]
     else js w)
  /\ counter (fst (processMessage e w msg)) (redisKey dp)
     = counter w (redisKey dp) + 1
  /\ snd (processMessage e w msg) = Ack.
Proof.
  intros Hmsg Hb Hi Hp Hmax.
  destruct (Incr_counter w (redisKey dp) Hmax) as (r1 & HI & Hc & _).
  unfold processMessage. rewrite Hmsg. fold (breach dp). rewrite Hb, Hi, HI, Hp.
  simpl.
  assert ((count <$> Expire (expire_ok e) (redisKey dp) 300 r1 !! redisKey dp)
          = Some (counter w (redisKey dp) + 1)) as HE
    by (by rewrite lookup_Expire).
  destruct (3 <=? counter w (redisKey dp) + 1); simpl;
    (split; [done|]; split; [|done]); by apply counter_of_lookup.
Qed.

Lemma X5_witness :
  let w2 := run start (take 2 scenario) in
  js (fst (processMessage unacknowledged w2 (deliver (reading 95))))
  = (if (3 <=? counter w2 (redisKey (reading 95)) + 1)
        && publish_sent unacknowledged
     then js w2 ++ [(notificationSubject (reading 95),
                     triggerPayload (reading 95))]
     else js w2)
  /\ counter (fst (processMessage unacknowledged w2 (deliver (reading 95))))
       (redisKey (reading 95))
     = counter w2 (redisKey (reading 95)) + 1
  /\ snd (processMessage unacknowledged w2 (deliver (reading 95))) = Ack.
Proof.
  apply (X5_publish_failure_keeps_counter unacknowledged _
           (deliver (reading 95)) (reading 95) eq_refl eq_refl eq_refl
           eq_refl).
  vm_compute. discriminate.
Defined.

End ProcessMessage.

(** ** The consumer loop *)

Section ConsumerLoop.
Import Analysis Detector Engine Further.

Lemma consume_cons w e m msgs :
  consume w ((e, m) :: msgs)
  = (fst (consume (fst (processMessage e (pass (elapsed e) w) m)) msgs),
     snd (processMessage e (pass (elapsed e) w) m)
     :: snd (consume (fst (processMessage e (pass (elapsed e) w) m)) msgs)).
Proof.
  simpl. destruct (processMessage e (pass (elapsed e) w) m) as [w1 a]. simpl.
  by destruct (consume w1 msgs).
Qed.

Lemma consume_app msgs1 : forall w msgs2,
  consume w (msgs1 ++ msgs2)
  = (fst (consume (fst (consume w msgs1)) msgs2),
     snd (consume w msgs1) ++ snd (consume (fst (consume w msgs1)) msgs2)).
Proof.
  induction msgs1 as [|[e m] msgs1 IH]; intros w msgs2.
  - simpl. by destruct (consume w msgs2).
  - change (((e, m) :: msgs1) ++ msgs2) with ((e, m) :: (msgs1 ++ msgs2)).
    rewrite !consume_cons, IH. done.
Qed.

(** A property of the world that the passage of time and every processed
    message keep is kept by the loop. *)
Lemma consume_keeps (P : World -> Prop) (Q : Env * Msg -> Prop) msgs :
  (forall e w m, Q (e, m) -> P w -> P (pass (elapsed e) w)) ->
  (forall e w m, Q (e, m) -> P w -> P (fst (processMessage e w m))) ->
  forall w, Forall Q msgs -> P w -> P (fst (consume w msgs)).
Proof.
  intros Hpass Hstep.
  induction msgs as [|[e m] msgs IH]; intros w HQ HP; [done|].
  apply Forall_cons in HQ as [Hq HQ]. rewrite consume_cons. simpl.
  apply IH; [done|]. apply Hstep; [done|]. by apply (Hpass e w m).
Qed.

Lemma Forall_True {A} (l : list A) : Forall (fun _ => True) l.
Proof. induction l; constructor; auto. Qed.

Lemma loop_consume fetches : forall w,
  loop w fetches = consume w (fetched_messages fetches).
Proof.
  induction fetches as [|[msgs| |] fetches IH]; intros w; simpl; try done.
  rewrite consume_app.
  destruct (consume w msgs) as [w1 acks1]. simpl.
  rewrite IH. by destruct (consume w1 (fetched_messages fetches)).
Qed.

(** X6.  The loop answers the batches it fetches as one run over their
    messages in order: timeouts and fetch errors in between change nothing,
    and where a batch ends makes no difference, neither to the world nor to
    the replies. *)
Theorem X6_loop_is_consume_of_fetched_messages w fetches :
  loop w fetches = consume w (fetched_messages fetches)
  /\ (forall msgs1 msgs2,
        loop w [Batch msgs1; ErrTimeout; FetchError; Batch msgs2]
        = loop w [Batch (msgs1 ++ msgs2)]).
Proof.
  split; [apply loop_consume|]. intros msgs1 msgs2.
  rewrite !loop_consume. simpl. by rewrite !app_nil_r.
Qed.

(** X7.  Every message the loop processes gets one reply, in order: an
    acknowledgment when its payload decodes, a negative acknowledgment when
    it does not, whatever the counter store and the broker do. *)
Theorem X7_one_reply_per_message msgs : forall w,
  snd (consume w msgs) = map (fun x => reply_for (snd x)) msgs.
Proof.
  induction msgs as [|[e m] msgs IH]; intros w; [done|].
  rewrite consume_cons. simpl. rewrite IH. f_equal.
  unfold reply_for. destruct (Data m) as [dp|] eqn:Hm.
  - destruct (snd (processMessage e (pass (elapsed e) w) m)) eqn:Hr; [done|].
    apply nak_only_for_malformed_payload in Hr. congruence.
  - by rewrite malformed_payload_is_nak.
Qed.

Lemma triggerPayload_well_formed dp :
  breach dp = true ->
  well_formed_alert (notificationSubject dp, triggerPayload dp).
Proof.
  unfold breach. intros H. apply andb_prop in H as [Hs _].
  apply String.eqb_eq in Hs. unfold well_formed_alert. simpl. by rewrite Hs.
Qed.

(** X8.  Whatever the environment, the loop only ever adds to the published
    alerts, and every alert it adds names sensor temp1, carries the fixed
    condition text and is published on notifications.<organization>.<device>
    of the alert's own organization and device. *)
Theorem X8_alerts_are_appended_and_well_formed w fetches :
  Forall well_formed_alert (js w) ->
  (exists added, js (fst (loop w fetches)) = js w ++ added)
  /\ Forall well_formed_alert (js (fst (loop w fetches))).
Proof.
  intros Hw. rewrite loop_consume.
  pose proof (consume_keeps
    (fun w' => (exists added, js w' = js w ++ added)
               /\ Forall well_formed_alert (js w'))
    (fun _ => True) (fetched_messages fetches)) as H.
  apply H; [done| |apply Forall_True|].
  - intros e w1 m _ [[added Hadd] Hwf].
    destruct (step_published_breach e w1 m) as [->|(dp & _ & Hb & ->)].
    + split; [by exists added|done].
    + split.
      * exists (added ++ [(notificationSubject dp, triggerPayload dp)]).
        by rewrite Hadd, app_assoc.
      * apply Forall_app. split; [done|]. constructor; [|done].
        by apply triggerPayload_well_formed.
  - split; [exists []; by rewrite app_nil_r|done].
Qed.

Lemma X8_witness :
  (exists added, js (fst (loop start [Batch (messages scenario)]))
                 = js start ++ added)
  /\ Forall well_formed_alert (js (fst (loop start [Batch (messages scenario)]))).
Proof.
  apply (X8_alerts_are_appended_and_well_formed start
           [Batch (messages scenario)]).
  constructor.
Defined.

End ConsumerLoop.

(** ** Invariants of the counter store *)

Section CounterStore.
Import Analysis Detector Engine Further.

Lemma Incr_positive ok key r :
  counters_positive r -> counters_positive (fst (Incr ok key r)).
Proof.
  intros Hr. unfold Incr. destruct ok; [|done].
  destruct (r !! key) as [en|] eqn:Hk; simpl.
  - destruct (count en =? maxInt64); simpl; [done|].
    intros k en'. rewrite lookup_insert. case_decide.
    + intros [= <-]. simpl. specialize (Hr _ _ Hk). lia.
    + apply Hr.
  - intros k en'. rewrite lookup_insert. case_decide.
    + intros [= <-]. simpl. lia.
    + apply Hr.
Qed.

Lemma Expire_positive ok key s r :
  counters_positive r -> counters_positive (Expire ok key s r).
Proof.
  intros Hr k en Hk.
  pose proof (lookup_Expire ok key s r k) as HE. rewrite Hk in HE.
  destruct (r !! k) as [en0|] eqn:H0; simpl in HE; [|done].
  injection HE as ->. by apply (Hr k en0).
Qed.

Lemma Del_positive ok key r :
  counters_positive r -> counters_positive (Del ok key r).
Proof.
  intros Hr. unfold Del. destruct ok; [|done].
  intros k en Hk. apply lookup_delete_Some in Hk as [_ Hk]. by apply (Hr k).
Qed.

Lemma processMessage_positive e w m :
  counters_positive (rdb w) ->
  counters_positive (rdb (fst (processMessage e w m))).
Proof.
  intros Hw. unfold processMessage. destruct (Data m) as [dp|]; [|done].
  destruct (_ && float_gt _ _).
  - pose proof (Incr_positive (incr_ok e) (redisKey dp) _ Hw) as HI.
    destruct (Incr _ _ _) as [r1 res]. simpl in HI.
    pose proof (Expire_positive (expire_ok e) (redisKey dp) 300 _ HI) as HE.
    destruct (3 <=? default 0 res); [|done].
    destruct (publish_ok e); [|done]. simpl. by apply Del_positive.
  - destruct (_ && float_le _ _); [|done]. simpl. by apply Del_positive.
Qed.

Lemma idle_positive seconds r :
  counters_positive r -> counters_positive (idle seconds r).
Proof.
  intros Hr k en Hk.
  apply lookup_idle_Some in Hk as (en0 & Hk & <-). by apply (Hr k).
Qed.

(** X9.  Whatever the environment does, the loop never leaves a counter
    below one in the store: a counter is created at one, only ever moved up,
    and removed as a whole. *)
Theorem X9_counters_stay_positive w fetches :
  counters_positive (rdb w) ->
  counters_positive (rdb (fst (loop w fetches))).
Proof.
  intros Hw. rewrite loop_consume.
  apply (consume_keeps (fun w' => counters_positive (rdb w'))
           (fun _ => True)); [| |apply Forall_True|done].
  - intros e w1 m _. apply idle_positive.
  - intros e w1 m _. apply processMessage_positive.
Qed.

Lemma X9_witness :
  counters_positive (rdb (fst (loop start [Batch (messages interleaved)]))).
Proof.
  apply (X9_counters_stay_positive start [Batch (messages interleaved)]).
  intros k en Hk. unfold start in Hk. simpl in Hk.
    by rewrite lookup_empty in Hk.
Defined.




(** Outside the conditions of X10: a counter made while EXPIRE fails carries
    no idle window. *)
Example counter_without_idle_window :
  rdb (fst (processMessage
              {| incr_ok := true; expire_ok := false; publish_ok := true;
                 del_ok := true; publish_sent := true; elapsed := 0 |}
              start (deliver (reading 85))))
    !! keyOf "machine-123" "temp1"
  = Some {| count := 1; ttl := None |}.
Proof. vm_compute. reflexivity. Qed.

Lemma idle_fresh seconds r :
  0 <= seconds -> counters_fresh r -> counters_fresh (idle seconds r).
Proof.
  intros Hs Hr k en Hk. rewrite lookup_idle in Hk.
  destruct (r !! k) as [en0|] eqn:Hk0; [|done]. simpl in Hk.
  destruct (Hr _ _ Hk0) as (Hc & t & Ht & Hb). unfold age in Hk.
  rewrite Ht in Hk. destruct (t <=? seconds) eqn:Hle; [done|].
  apply Z.leb_gt in Hle. injection Hk as <-. simpl.
  split; [done|]. exists (t - seconds). split; [done|lia].
Qed.

Lemma processMessage_fresh e w m :
  all_answer e -> counters_fresh (rdb w) ->
  counters_fresh (rdb (fst (processMessage e w m))).
Proof.
  intros (Hi & He & Hp & Hd & _) Hw.
  unfold processMessage. destruct (Data m) as [dp|]; [|done].
  assert (counters_fresh (delete (redisKey dp) (rdb w))) as Hdel.
  { intros k en Hk. apply lookup_delete_Some in Hk as [_ Hk].
    by apply (Hw k). }
  rewrite Hi, He, Hp, Hd.
  destruct (_ && float_gt _ _).
  - unfold Incr, Expire.
    destruct (rdb w !! redisKey dp) as [en|] eqn:Hk.
    + destruct (Hw _ _ Hk) as [Hc _].
      assert ((count en =? maxInt64) = false) as ->
        by (apply Z.eqb_neq; unfold maxInt64; lia).
      simpl. destruct (3 <=? count en + 1) eqn:H3; simpl.
      * intros k en'. rewrite lookup_delete. case_decide; [done|].
        rewrite lookup_alter_ne, lookup_insert_ne by done. apply Hw.
      * apply Z.leb_gt in H3. intros k en'. rewrite lookup_alter.
        case_decide as Hkk.
        -- subst k. rewrite lookup_insert_eq. simpl. intros [= <-]. simpl.
           split; [lia|]. exists 300. split; [done|lia].
        -- rewrite lookup_insert_ne by done. apply Hw.
    + simpl. intros k en'. rewrite lookup_alter. case_decide as Hkk.
      * subst k. rewrite lookup_insert_eq. simpl. intros [= <-]. simpl.
        split; [lia|]. exists 300. split; [done|lia].
      * rewrite lookup_insert_ne by done. apply Hw.
  - destruct (_ && float_le _ _); [|done]. done.
Qed.

(** X26.  While every remote call answers, whatever the time between two
    messages, every counter the loop leaves in the store stands at one or two
    and has between one and 300 seconds of its idle window left: no counter
    outlives five minutes without a reading of its key. *)
Theorem X26_counters_stay_fresh w fetches :
  Forall (fun x => all_answer (fst x)) (fetched_messages fetches) ->
  counters_fresh (rdb w) ->
  counters_fresh (rdb (fst (loop w fetches))).
Proof.
  intros Hall Hw. rewrite loop_consume.
  apply (consume_keeps (fun w' => counters_fresh (rdb w'))
           (fun x => all_answer (fst x))); [| |done|done].
  - intros e w1 m (_ & _ & _ & _ & Hel) Hw1. by apply idle_fresh.
  - intros e w1 m He. by apply processMessage_fresh.
Qed.

Lemma X26_witness :
  counters_fresh
    (rdb (fst (loop start
                 [Batch (messages [(after 10, reading 85)]); ErrTimeout;
                  Batch (messages [(after 299, reading 90);
                                   (after 120, other_device 95)])]))).
Proof.
  apply (X26_counters_stay_fresh start
           [Batch (messages [(after 10, reading 85)]); ErrTimeout;
            Batch (messages [(after 299, reading 90);
                             (after 120, other_device 95)])]).
  - repeat constructor; simpl; lia.
  - intros k en Hk. unfold start in Hk. simpl in Hk.
    by rewrite lookup_empty in Hk.
Defined.

End CounterStore.

(** ** Alerts and breaches *)

Section AlertsAndBreaches.
Import Analysis Detector Further.

(** X11.  While the counter store and the broker answer for the readings of
    sensor temp1 of device [d], the loop publishes at most one alert for [d]
    per three breaching readings of [d]; in particular it publishes none
    when fewer than three of them breach. *)
Theorem X11_one_alert_per_three_breaches d feed :
  Forall (fun x => monitored d (snd x) -> operational (fst x) = true) feed ->
  (3 * length (alerts_for d (run start feed))
   <= breaches (readings_of d feed))%nat.
Proof.
  intros Hall.
  pose proof (run_weight d feed start Hall (start_armed _)) as H.
  rewrite (absent_counter start (keyOf d "temp1") (lookup_empty _)) in H.
  unfold breaches. simpl in H. lia.
Qed.

Lemma X11_witness :
  (3 * length (alerts_for "machine-123" (run start interleaved))
   <= breaches (readings_of "machine-123" interleaved))%nat.
Proof.
  apply (X11_one_alert_per_three_breaches "machine-123" interleaved).
  repeat constructor; by intros [? ?].
Defined.

(** Outside the conditions of X11: when the delete that follows a publish
    fails, the counter stays at three and each further breaching reading
    publishes an alert of its own. *)
Example delete_failure_repeats_alerts :
  let del_down := {| incr_ok := true; expire_ok := true; publish_ok := true;
                     del_ok := false; publish_sent := true; elapsed := 0 |} in
  length (js (run start [(nominal, reading 85); (nominal, reading 90);
                         (del_down, reading 95); (del_down, reading 96);
                         (del_down, reading 97)])) = 3%nat.
Proof. vm_compute. reflexivity. Qed.

(** The counter of device [d] a while later, no command having touched its
    key. *)
Lemma stale_later d w w' since seconds :
  stale d w since -> 0 <= seconds ->
  rdb w' !! keyOf d "temp1" = idle seconds (rdb w) !! keyOf d "temp1" ->
  stale d w' (since + seconds).
Proof.
  intros [Hnone|(t & Hk & Ht)] Hs Hw'.
  - left. rewrite Hw'. by apply lookup_idle_None.
  - destruct (Z_le_gt_dec t seconds) as [Hle|Hgt].
    + left. rewrite Hw'. by apply (lookup_idle_expired seconds _ _ 1 t).
    + right. exists (t - seconds). split; [|lia].
      rewrite Hw'. apply lookup_idle_within; [done|lia].
Qed.

(** Once 300 seconds have gone by the counter is gone. *)
Lemma stale_expired d w since seconds :
  stale d w since -> 300 <= since + seconds ->
  rdb (pass seconds w) !! keyOf d "temp1" = None.
Proof.
  intros [Hnone|(t & Hk & Ht)] Hs; simpl.
  - by apply lookup_idle_None.
  - apply (lookup_idle_expired seconds _ _ 1 t); [done|lia].
Qed.

(** A reading that finds no counter under its key publishes nothing and
    leaves no counter or a counter at one with a new idle window. *)
Lemma step_absent e w dp :
  rdb w !! redisKey dp = None -> expire_ok e = true ->
  js (fst (processMessage e w (deliver dp))) = js w
  /\ (rdb (fst (processMessage e w (deliver dp))) !! redisKey dp = None
      \/ rdb (fst (processMessage e w (deliver dp))) !! redisKey dp
         = Some {| count := 1; ttl := Some 300 |}).
Proof.
  intros Hk He. unfold processMessage. simpl.
  destruct (_ && float_gt _ _).
  - unfold Incr, Expire. rewrite Hk, He. destruct (incr_ok e); simpl.
    + split; [done|]. right. by rewrite lookup_alter_eq, lookup_insert_eq.
    + split; [done|]. left. by rewrite lookup_alter_eq, Hk.
  - destruct (_ && float_le _ _); simpl; [|by auto].
    split; [done|]. left. unfold Del.
    destruct (del_ok e); [apply lookup_delete_eq|done].
Qed.

Lemma run_sparse d feed : forall w since,
  Forall (fun x => monitored d (snd x) -> expire_ok (fst x) = true) feed ->
  sparse d since feed -> stale d w since ->
  alerts_for d (run w feed) = alerts_for d w.
Proof.
  induction feed as [|[e dp] feed IH]; intros w since Hall Hsp Hst;
    [by rewrite run_nil|].
  apply Forall_cons in Hall as [He Hall]. simpl in He.
  destruct Hsp as [Hel Hsp]. simpl in Hel, Hsp.
  rewrite run_cons. simpl fst. simpl snd.
  destruct (monitoredb d dp) eqn:Hmb.
  - destruct Hsp as [Hfar Hsp].
    apply monitoredb_spec in Hmb as Hmon. specialize (He Hmon).
    pose proof (monitored_key _ _ Hmon) as Hkey.
    pose proof (stale_expired d w since (elapsed e) Hst Hfar) as Hnone.
    rewrite <- Hkey in Hnone.
    destruct (step_absent e (pass (elapsed e) w) dp Hnone He) as [Hjs Hrdb].
    rewrite Hkey in Hrdb.
    rewrite (IH _ 0 Hall Hsp).
    + by rewrite (alerts_for_same d _ _ Hjs), alerts_for_pass.
    + destruct Hrdb as [Hrdb|Hrdb]; [by left|].
      right. exists 300. split; [done|lia].
  - destruct (step_unmonitored e (pass (elapsed e) w) dp d Hmb)
      as [Hrdb Hal].
    rewrite (IH _ (since + elapsed e) Hall Hsp).
    + by rewrite Hal, alerts_for_pass.
    + by apply (stale_later d w).
Qed.

(** X27.  Readings of sensor temp1 of device [d] that come 300 seconds or
    more after one another never publish an alert for [d], however many of
    them breach the threshold, as long as the EXPIRE of each answers: each
    finds the counter of the one before expired and counts one. *)
Theorem X27_sparse_readings_never_alert d feed :
  Forall (fun x => monitored d (snd x) -> expire_ok (fst x) = true) feed ->
  sparse d 300 feed ->
  alerts_for d (run start feed) = [].
Proof.
  intros Hall Hsp.
  rewrite (run_sparse d feed start 300 Hall Hsp); [done|].
  left. apply lookup_empty.
Qed.

Lemma X27_witness :
  alerts_for "machine-123" (run start (every_five_minutes 5)) = [].
Proof.
  apply (X27_sparse_readings_never_alert "machine-123"
           (every_five_minutes 5)).
  - repeat constructor.
  - vm_compute. repeat split; discriminate.
Defined.

(** Outside the conditions of X27: a counter whose EXPIRE failed never
    expires, and the third breaching reading publishes the alert however
    late it comes. *)
Example counter_without_window_never_expires :
  let expire_down := {| incr_ok := true; expire_ok := false;
                        publish_ok := true; del_ok := true;
                        publish_sent := true; elapsed := 86400 |} in
  length (js (run start [(expire_down, reading 85); (expire_down, reading 90);
                         (expire_down, reading 95)])) = 1%nat.
Proof. vm_compute. reflexivity. Qed.

(** X12.  The counter of a reading is keyed by device and sensor alone: two
    readings of one sensor name share a counter exactly when their device
    identifiers are equal, whichever organizations sent them. *)
Theorem X12_counter_key_ignores_organization dp1 dp2 :
  SensorName dp1 = SensorName dp2 ->
  (redisKey dp1 = redisKey dp2 <-> DeviceID dp1 = DeviceID dp2).
Proof.
  intros Hs. unfold redisKey. rewrite Hs. split.
  - intros H. apply (String.app_inj "breach:count:") in H.
    by apply append_inv_tail in H.
  - by intros ->.
Qed.

Lemma X12_witness :
  redisKey (reading 85) = redisKey (orgB_device 95)
  <-> DeviceID (reading 85) = DeviceID (orgB_device 95).
Proof.
  exact (X12_counter_key_ignores_organization (reading 85) (orgB_device 95)
           eq_refl).
Defined.

(** Two breaching readings of orgA's machine-123 and one of orgB's
    machine-123 make three in a row on the shared counter; the alert goes
    out for orgB. *)
Example shared_counter_across_organizations :
  js (run start [(nominal, reading 85); (nominal, reading 90);
                 (nominal, orgB_device 95)])
  = [("notifications.orgB.machine-123", triggerPayload (orgB_device 95))].
Proof. vm_compute. reflexivity. Qed.

End AlertsAndBreaches.

(** ** Subjects, patterns and stream names *)

Section Namespace.
Import Nats Tenancy Further.

Lemma tokens_match_cons p ps t ts :
  ps <> [] ->
  tokens_match (p :: ps) (t :: ts)
  = (String.eqb p "*" || String.eqb p t) && tokens_match ps ts.
Proof. by destruct ps. Qed.

Lemma tokens_match_prefix ts : forall rest,
  rest <> [] -> tokens_match (ts ++ [">"]) (ts ++ rest) = true.
Proof.
  induction ts as [|p ts IH]; intros rest Hrest.
  - destruct rest as [|t rest]; [done|]. reflexivity.
  - change ((p :: ts) ++ [">"]) with (p :: (ts ++ [">"])).
    change ((p :: ts) ++ rest) with (p :: (ts ++ rest)).
    rewrite tokens_match_cons by (by destruct ts).
    rewrite IH by done. rewrite String.eqb_refl. by rewrite orb_true_r.
Qed.

Lemma tokens_subject_full (dp : Ingestion.DataPoint) :
  tokens (Ingestion.subject dp)
  = "data" :: tokens (Ingestion.OrganizationID dp)
    ++ tokens (Ingestion.DeviceID dp) ++ tokens (Ingestion.SensorName dp).
Proof.
  unfold Ingestion.subject.
  change ("data." +:+ ?x) with ("data" +:+ "." +:+ x).
  by rewrite !tokens_app.
Qed.

(** X13.  Every subject the ingestion service publishes a reading on is
    captured by the stream createOrganizationHandler provisions for the
    reading's organization, whatever the identifiers are. *)
Theorem X13_provisioned_stream_captures_own_subjects
  (dp : Ingestion.DataPoint) :
  captures (Management.orgStreamConfig (Ingestion.OrganizationID dp))
    (Ingestion.subject dp) = true.
Proof.
  unfold captures, Management.orgStreamConfig, Management.orgStreamSubjects.
  simpl. rewrite orb_false_r. unfold subject_matches.
  rewrite tokens_subject_full.
  change ("data." +:+ ?x +:+ ".>") with ("data" +:+ "." +:+ (x +:+ "." +:+ ">")).
  rewrite !tokens_app.
  change (tokens "data") with ["data"]. change (tokens ">") with [">"].
  apply (tokens_match_prefix ("data" :: tokens (Ingestion.OrganizationID dp))).
  pose proof (tokens_nonempty (Ingestion.DeviceID dp)).
  by destruct (tokens (Ingestion.DeviceID dp)).
Qed.

Lemma tokens_device_pattern org dev :
  dotless org = true -> dotless dev = true ->
  tokens (Management.devicePattern org dev) = ["data"; org; dev; ">"].
Proof.
  intros Ho Hd. unfold Management.devicePattern.
  change ("data." +:+ org +:+ "." +:+ dev +:+ ".>")
    with ("data" +:+ "." +:+ (org +:+ "." +:+ (dev +:+ "." +:+ ">"))).
  by rewrite !tokens_app, (tokens_dotless _ Ho), (tokens_dotless _ Hd).
Qed.

Lemma device_pattern_matches org dev (dp : Ingestion.DataPoint) :
  literal_token org -> literal_token dev ->
  dotless (Ingestion.OrganizationID dp) = true ->
  dotless (Ingestion.DeviceID dp) = true ->
  subject_matches (Management.devicePattern org dev) (Ingestion.subject dp)
  = true
  <-> Ingestion.OrganizationID dp = org /\ Ingestion.DeviceID dp = dev.
Proof.
  intros [Ho Hos] [Hd Hds] Ho' Hd'. unfold subject_matches.
  rewrite tokens_subject_full, (tokens_device_pattern _ _ Ho Hd),
    (tokens_dotless _ Ho'), (tokens_dotless _ Hd').
  pose proof (tokens_nonempty (Ingestion.SensorName dp)) as Hne.
  destruct (tokens (Ingestion.SensorName dp)) as [|t ts]; [done|].
  simpl. apply String.eqb_neq in Hos, Hds. rewrite Hos, Hds. simpl.
  rewrite andb_true_iff, !String.eqb_eq. rewrite andb_true_r.
  rewrite String.eqb_eq. split; intros [-> ->]; done.
Qed.

(** X14.  The pattern granted to a device matches the subject of a reading
    exactly when the reading is of that organization and that device, for
    identifiers that are single tokens and not the wildcard: it matches every
    sensor of the device and no subject of another device or organization. *)
Theorem X14_device_pattern_matches_own_device org dev
  (dp : Ingestion.DataPoint) :
  literal_token org -> literal_token dev ->
  dotless (Ingestion.OrganizationID dp) = true ->
  dotless (Ingestion.DeviceID dp) = true ->
  subject_matches (Management.devicePattern org dev) (Ingestion.subject dp)
  = true
  <-> Ingestion.OrganizationID dp = org /\ Ingestion.DeviceID dp = dev.
Proof. apply device_pattern_matches. Qed.

Lemma X14_witness :
  subject_matches (Management.devicePattern "orgA" "machine-123")
    (Ingestion.subject orgB_reading) = true
  <-> Ingestion.OrganizationID orgB_reading = "orgA"
      /\ Ingestion.DeviceID orgB_reading = "machine-123".
Proof.
  apply (X14_device_pattern_matches_own_device "orgA" "machine-123"
           orgB_reading); try reflexivity; split; (reflexivity || discriminate).
Defined.

Lemma hex_is_not_dot c : Validator.is_hex c = true -> Ascii.eqb c "." = false.
Proof.
  intros H. destruct (Ascii.eqb_spec c "."%char) as [->|]; [|done].
  discriminate H.
Qed.

Lemma uuid_from_dotless s : forall i,
  Validator.uuid_from i s = true -> dotless s = true.
Proof.
  induction s as [|c s IH]; intros i; [done|]. simpl.
  intros H. apply andb_prop in H as [Hc Hs].
  rewrite (IH _ Hs), andb_true_r. apply negb_true_iff.
  destruct (Validator.is_dash_position i).
  - apply Ascii.eqb_eq in Hc. by subst c.
  - by apply hex_is_not_dot.
Qed.

Lemma uuid_literal_token s : Validator.uuid s = true -> literal_token s.
Proof.
  intros H. split; [by apply (uuid_from_dotless s 0%nat)|].
  intros ->. discriminate H.
Qed.

(** X15.  The grant registerDeviceHandler builds for a validated
    registration and a device identifier in UUID form allows publishing a
    reading exactly when the reading carries the organization of the
    registration and the identifier of the new device (readings with
    single-token identifiers). *)
Theorem X15_registration_claims_allow_own_device_only
  reg deviceID (dp : Ingestion.DataPoint) :
  Management.validateRegistration reg = [] ->
  Validator.uuid deviceID = true ->
  dotless (Ingestion.OrganizationID dp) = true ->
  dotless (Ingestion.DeviceID dp) = true ->
  exists claims,
    Management.registrationClaims reg deviceID = Some claims
    /\ (existsb (fun p => subject_matches p (Ingestion.subject dp))
          (Jwt.Allow (Jwt.Pub (Jwt.Permissions claims))) = true
        <-> Ingestion.OrganizationID dp = Management.OrganizationID reg
            /\ Ingestion.DeviceID dp = deviceID).
Proof.
  intros Hv Hdev Ho Hd.
  assert (Validator.uuid (Management.OrganizationID reg) = true) as Horg.
  { unfold Management.validateRegistration in Hv.
    rewrite failing_cons in Hv.
    destruct (Validator.required_string _ && Validator.uuid _) eqn:Hc;
      [|done].
    by apply andb_prop in Hc as [_ Hc]. }
  eexists. split.
  - apply registrationClaims_Some. by apply uuid_not_empty.
  - simpl. rewrite orb_false_r.
    apply device_pattern_matches; auto using uuid_literal_token.
Qed.

Lemma X15_witness :
  exists claims,
    Management.registrationClaims Samples.registration Samples.deviceID
    = Some claims
    /\ (existsb
          (fun p => subject_matches p (Ingestion.subject registered_reading))
          (Jwt.Allow (Jwt.Pub (Jwt.Permissions claims))) = true
        <-> Ingestion.OrganizationID registered_reading
            = Management.OrganizationID Samples.registration
            /\ Ingestion.DeviceID registered_reading = Samples.deviceID).
Proof.
  exact (X15_registration_claims_allow_own_device_only
           Samples.registration Samples.deviceID registered_reading
           eq_refl eq_refl eq_refl eq_refl).
Defined.

(** X16.  Stream names and stream subjects are in one-to-one correspondence
    with organization identifiers: two organizations never share a stream
    name or a subject binding. *)
Theorem X16_stream_names_are_injective a b :
  (Management.orgStreamName a = Management.orgStreamName b <-> a = b)
  /\ (Management.orgStreamSubjects a = Management.orgStreamSubjects b
      <-> a = b).
Proof.
  split; (split; [|by intros ->]).
  - unfold Management.orgStreamName. intros H.
    apply (String.app_inj "ORG_") in H. by apply append_inv_tail in H.
  - unfold Management.orgStreamSubjects. intros [= H].
    exact (append_inv_tail a b ".>" H).
Qed.

(** X17.  For readings whose identifiers are single tokens the subject
    determines organization, device and sensor: its tokens are data, the
    organization, the device and the sensor, so that two such readings share
    a subject only when the three identifiers agree. *)
Theorem X17_subject_determines_identifiers (dp1 dp2 : Ingestion.DataPoint) :
  plain_identifiers dp1 -> plain_identifiers dp2 ->
  tokens (Ingestion.subject dp1)
  = ["data"; Ingestion.OrganizationID dp1; Ingestion.DeviceID dp1;
     Ingestion.SensorName dp1]
  /\ (Ingestion.subject dp1 = Ingestion.subject dp2 ->
      Ingestion.OrganizationID dp1 = Ingestion.OrganizationID dp2
      /\ Ingestion.DeviceID dp1 = Ingestion.DeviceID dp2
      /\ Ingestion.SensorName dp1 = Ingestion.SensorName dp2).
Proof.
  intros (Ho1 & Hd1 & Hs1) (Ho2 & Hd2 & Hs2).
  assert (forall dp, plain_identifiers dp ->
            tokens (Ingestion.subject dp)
            = ["data"; Ingestion.OrganizationID dp; Ingestion.DeviceID dp;
               Ingestion.SensorName dp]) as Htok.
  { intros dp (Ho & Hd & Hs).
    by rewrite tokens_subject_full, (tokens_dotless _ Ho),
      (tokens_dotless _ Hd), (tokens_dotless _ Hs). }
  split; [by apply Htok|]. intros Heq.
  apply (f_equal tokens) in Heq. rewrite !Htok in Heq by done.
  by injection Heq.
Qed.

Lemma X17_witness :
  tokens (Ingestion.subject orgB_reading)
  = ["data"; "orgB"; "machine-123"; "temp1"]
  /\ (Ingestion.subject orgB_reading = Ingestion.subject registered_reading ->
      Ingestion.OrganizationID orgB_reading
      = Ingestion.OrganizationID registered_reading
      /\ Ingestion.DeviceID orgB_reading
         = Ingestion.DeviceID registered_reading
      /\ Ingestion.SensorName orgB_reading
         = Ingestion.SensorName registered_reading).
Proof.
  apply (X17_subject_determines_identifiers orgB_reading registered_reading);
    repeat split.
Defined.

(** Outside the conditions of X17: with a dot in an identifier two different
    readings share a subject. *)
Example dotted_identifiers_share_a_subject :
  Ingestion.subject
    {| Ingestion.OrganizationID := "acme.eu"; Ingestion.DeviceID := "d1";
       Ingestion.SensorName := "temp1"; Ingestion.Value := float_of_Z 1;
       Ingestion.Timestamp := 1 |}
  = Ingestion.subject
      {| Ingestion.OrganizationID := "acme"; Ingestion.DeviceID := "eu.d1";
         Ingestion.SensorName := "temp1"; Ingestion.Value := float_of_Z 1;
         Ingestion.Timestamp := 1 |}.
Proof. reflexivity. Qed.

End Namespace.

(** ** The management handlers *)

Section ManagementHandlers.
Import Management Provisioning.

Lemma required_string_spec s : Validator.required_string s = true <-> s <> "".
Proof.
  unfold Validator.required_string. rewrite negb_true_iff.
  apply String.eqb_neq.
Qed.

Lemma failing_nil name (ok : bool) checks :
  Validator.failing ((name, ok) :: checks) = []
  <-> ok = true /\ Validator.failing checks = [].
Proof.
  rewrite failing_cons. destruct ok; split; try done.
  - by intros [_ ?].
  - by intros [? _].
Qed.

Lemma validateOrganization_nil org :
  validateOrganization org = [] <-> ID org <> "" /\ Name org <> "".
Proof.
  unfold validateOrganization. rewrite !failing_nil, !required_string_spec.
  unfold Validator.failing. simpl. tauto.
Qed.

Lemma uuid_nonempty s : Validator.uuid s = true -> s <> "".
Proof. intros H ->. discriminate H. Qed.

Lemma validateRegistration_nil reg :
  validateRegistration reg = []
  <-> Validator.uuid (OrganizationID reg) = true /\ RegName reg <> "".
Proof.
  unfold validateRegistration.
  rewrite !failing_nil, andb_true_iff, !required_string_spec.
  unfold Validator.failing. simpl.
  pose proof (uuid_nonempty (OrganizationID reg)). tauto.
Qed.

(** AddStream either leaves the table as it is or adds the stream under a
    name that was free. *)
Lemma AddStream_cases ok cfg (streams : gmap string Nats.StreamConfig) :
  fst (Nats.AddStream ok cfg streams) = streams
  \/ (streams !! Nats.Name cfg = None
      /\ Nats.AddStream ok cfg streams
         = (<[Nats.Name cfg := cfg]> streams, Some cfg)).
Proof.
  unfold Nats.AddStream. destruct ok; [|by left].
  destruct (streams !! Nats.Name cfg) as [old|] eqn:Hk.
  - left. by case_decide.
  - right. done.
Qed.

Lemma createOrganization_table ok streams req :
  fst (createOrganizationHandler ok streams req) = streams
  \/ exists org,
       req = Some org /\ streams !! orgStreamName (ID org) = None
       /\ createOrganizationHandler ok streams req
          = (<[orgStreamName (ID org) := orgStreamConfig (ID org)]> streams,
             created org).
Proof.
  unfold createOrganizationHandler. destruct req as [org|]; [|by left].
  destruct (validateOrganization org); [|by left].
  destruct (AddStream_cases ok (orgStreamConfig (ID org)) streams)
    as [Hsame|[Hfree ->]].
  - left. by destruct (Nats.AddStream _ _ _) as [s' [c|]].
  - right. by exists org.
Qed.

(** X18.  createOrganizationHandler never changes or removes a stream that
    exists: whatever the request and the broker's answer, every stream of
    the table is still there with its configuration afterwards, and when the
    answer is not 201 Created the table is exactly as it was. *)
Theorem X18_provisioning_keeps_existing_streams ok streams req :
  (forall name cfg,
     streams !! name = Some cfg ->
     fst (createOrganizationHandler ok streams req) !! name = Some cfg)
  /\ (status (snd (createOrganizationHandler ok streams req))
      <> StatusCreated ->
      fst (createOrganizationHandler ok streams req) = streams).
Proof.
  destruct (createOrganization_table ok streams req)
    as [Hsame|(org & -> & Hfree & Heq)].
  - rewrite Hsame. by split.
  - rewrite Heq. simpl. split; [|done].
    intros name cfg Hname. rewrite lookup_insert_ne; [done|].
    intros <-. congruence.
Qed.

(** X19.  createOrganizationHandler answers 201 Created exactly when the
    body decodes to an organization with a non-empty id and name, the broker
    accepts the request, and the stream name is free or already bound to the
    organization's own configuration. *)
Theorem X19_provisioning_succeeds_iff ok streams req :
  status (snd (createOrganizationHandler ok streams req)) = StatusCreated
  <-> exists org,
        req = Some org /\ ID org <> "" /\ Name org <> "" /\ ok = true
        /\ (streams !! orgStreamName (ID org) = None
            \/ streams !! orgStreamName (ID org)
               = Some (orgStreamConfig (ID org))).
Proof.
  unfold createOrganizationHandler. destruct req as [org|]; simpl.
  - destruct (validateOrganization org) as [|f fs] eqn:Hv.
    + apply validateOrganization_nil in Hv as [Hid Hname].
      unfold Nats.AddStream. destruct ok.
      * simpl Nats.Name.
        destruct (streams !! orgStreamName (ID org)) as [old|] eqn:Hk.
        -- case_decide as Hold; simpl.
           ++ split; [|done]. intros _. exists org. subst old. auto 10.
           ++ split; [done|]. intros (org' & [= <-] & _ & _ & _ & [?|?]);
                congruence.
        -- simpl. split; [|done]. intros _. exists org. auto 10.
      * simpl. split; [done|]. by intros (? & _ & _ & _ & ? & _).
    + simpl. split; [done|].
      intros (org' & [= <-] & Hid & Hname & _).
      assert (validateOrganization org = []) as Hnil
        by (by apply validateOrganization_nil).
      congruence.
  - split; [done|]. by intros (? & ? & _).
Qed.

(** X20.  With a device identifier in UUID form, which is what
    uuid.New().String() gives, registerDeviceHandler returns without a panic
    and never answers 201 Created, whatever the signing key: it answers 400
    exactly when the body does not decode or the registration fails
    validation, and 500 exactly when the body decodes to a registration whose
    organization_id has UUID form and whose name is not empty. *)
Theorem X20_registration_answers g deviceID ok req :
  Validator.uuid deviceID = true ->
  exists r,
    registerDeviceHandler g deviceID ok req = Returns r
    /\ status r <> StatusCreated
    /\ (status r = StatusInternalServerError
        <-> exists reg,
              req = Some reg /\ Validator.uuid (OrganizationID reg) = true
              /\ RegName reg <> "")
    /\ (status r = StatusBadRequest
        <-> req = None
            \/ exists reg,
                 req = Some reg
                 /\ ~ (Validator.uuid (OrganizationID reg) = true
                       /\ RegName reg <> "")).
Proof.
  intros Hdev. destruct req as [reg|].
  - destruct (validateRegistration reg) as [|f fs] eqn:Hv.
    + rewrite (registration_of_uuid_fails g deviceID ok reg Hdev Hv).
      apply validateRegistration_nil in Hv as [Hu Hn].
      eexists. split; [done|]. simpl. split; [done|]. split.
      * split; [|done]. intros _. by exists reg.
      * split; [done|]. intros [?|(reg' & [= <-] & Hnot)]; [done|].
        by destruct Hnot.
    + unfold registerDeviceHandler. rewrite Hv.
      eexists. split; [done|]. simpl. split; [done|]. split.
      * split; [done|]. intros (reg' & [= <-] & Hu & Hn).
        assert (validateRegistration reg = []) as Hnil
          by (by apply validateRegistration_nil).
        congruence.
      * split; [|done]. intros _. right. exists reg. split; [done|].
        intros Hboth. apply validateRegistration_nil in Hboth. congruence.
  - eexists. split; [done|]. simpl. split; [done|]. split.
    + split; [done|]. by intros (? & ? & _).
    + split; [|done]. intros _. by left.
Qed.

Lemma X20_witness :
  exists r,
    registerDeviceHandler {| signingKey := Some Samples.accountKey |}
      Samples.deviceID true (Some Samples.registration) = Returns r
    /\ status r <> StatusCreated
    /\ (status r = StatusInternalServerError
        <-> exists reg,
              Some Samples.registration = Some reg
              /\ Validator.uuid (OrganizationID reg) = true
              /\ RegName reg <> "")
    /\ (status r = StatusBadRequest
        <-> Some Samples.registration = None
            \/ exists reg,
                 Some Samples.registration = Some reg
                 /\ ~ (Validator.uuid (OrganizationID reg) = true
                       /\ RegName reg <> "")).
Proof.
  exact (X20_registration_answers {| signingKey := Some Samples.accountKey |}
           Samples.deviceID true (Some Samples.registration) eq_refl).
Defined.

(** The request of the README, whose organization_id is not a UUID, is
    answered with a validation error. *)
Example readme_registration_is_rejected :
  registerDeviceHandler {| signingKey := None |} Samples.deviceID
    true (Some {| OrganizationID := "orgA"; RegName := "Temp Sensor 1" |})
  = Returns {| status := StatusBadRequest;
               body := ValidationError ["OrganizationID"] |}.
Proof. reflexivity. Qed.

(** With a device identifier that is a public user nkey and an account key to
    sign with, a registration would be answered with 201 Created. *)
Example registration_of_user_nkey :
  registerDeviceHandler {| signingKey := Some Samples.accountKey |}
    Samples.userNkey true (Some Samples.registration)
  = Returns
      {| status := StatusCreated;
         body :=
           Registered Samples.userNkey
             {| Jwt.payload :=
                  {| Jwt.Subject := Samples.userNkey;
                     Jwt.Permissions :=
                       {| Jwt.Pub :=
                            {| Jwt.Allow :=
                                 [devicePattern
                                    (OrganizationID Samples.registration)
                                    Samples.userNkey];
                               Jwt.Deny := [] |};
                          Jwt.Sub := {| Jwt.Allow := []; Jwt.Deny := [] |} |};
                     Jwt.Expires := 0;
                     Jwt.NotBefore := 0 |};
                Jwt.signer := Samples.accountKey |} |}.
Proof. reflexivity. Qed.

Lemma Encode_spec ok pair c token :
  Jwt.Encode ok pair c = Some token
  <-> Jwt.user_key_shape (Jwt.Subject c) = true /\ ok = true
      /\ pair = Some (Jwt.signer token)
      /\ Jwt.kind (Jwt.signer token) = Jwt.AccountKey
      /\ Jwt.payload token = c.
Proof.
  split.
  - intros H. apply Encode_Some in H. tauto.
  - intros (Hs & -> & -> & Hk & <-). unfold Jwt.Encode.
    rewrite Hs, Hk. simpl. by destruct token.
Qed.

Lemma Encode_None ok pair c :
  Jwt.Encode ok pair c = None
  <-> Jwt.user_key_shape (Jwt.Subject c) = false \/ ok = false
      \/ forall kp, pair = Some kp -> Jwt.kind kp <> Jwt.AccountKey.
Proof.
  unfold Jwt.Encode.
  destruct (Jwt.user_key_shape (Jwt.Subject c)); [|by split; auto].
  destruct ok; [|by split; auto]. simpl.
  destruct pair as [kp|].
  - destruct (Jwt.kind kp) eqn:Hk; split; try done.
    + intros _. right. right. intros kp' [= <-]. congruence.
    + intros [?|[?|H]]; try done. by destruct (H kp).
    + intros _. right. right. intros kp' [= <-]. congruence.
  - split; [|done]. intros _. right. right. by intros kp.
Qed.

(** X21.  GenerateSASToken panics exactly when the device identifier is
    empty.  It returns a token exactly when the device identifier is a public
    user nkey and the signing key is an account's; the token is then signed
    with the signing key, has the device identifier as subject, grants
    publishing on data.<organization>.<device>.> and nothing else, expires
    twelve hours after the first clock reading and is not valid before the
    second.  It returns the error for every other device identifier that is
    not empty, and whenever the signing key is missing or not an account's. *)
Theorem X21_sas_token g ok now1 now2 orgID deviceID :
  (GenerateSASToken g ok now1 now2 orgID deviceID = Panics
   <-> deviceID = "")
  /\ (forall token,
        GenerateSASToken g ok now1 now2 orgID deviceID = Returns (Some token)
        <-> Jwt.user_key_shape deviceID = true /\ ok = true
            /\ signingKey g = Some (Jwt.signer token)
            /\ Jwt.kind (Jwt.signer token) = Jwt.AccountKey
            /\ Jwt.payload token
               = {| Jwt.Subject := deviceID;
                    Jwt.Permissions :=
                      {| Jwt.Pub :=
                           {| Jwt.Allow :=
                                ["data." +:+ orgID +:+ "." +:+ deviceID
                                 +:+ ".>"];
                              Jwt.Deny := [] |};
                         Jwt.Sub := {| Jwt.Allow := []; Jwt.Deny := [] |} |};
                    Jwt.Expires := now1 + 43200;
                    Jwt.NotBefore := now2 |})
  /\ (GenerateSASToken g ok now1 now2 orgID deviceID = Returns None
      <-> deviceID <> ""
          /\ (Jwt.user_key_shape deviceID = false \/ ok = false
              \/ forall kp,
                   signingKey g = Some kp -> Jwt.kind kp <> Jwt.AccountKey)).
Proof.
  unfold GenerateSASToken.
  destruct (String.eqb_spec deviceID "") as [->|Hid].
  - simpl. split; [done|]. split.
    + intros token. split; [done|]. by intros (? & _).
    + split; [done|]. by intros (? & _).
  - rewrite (sasClaims_Some now1 now2 orgID deviceID Hid).
    split; [done|]. split.
    + intros token. split.
      * intros [= H]. apply Encode_spec in H as (Hs & Hok & Hk & Hkind & Hp).
        by repeat split.
      * intros (Hs & Hok & Hk & Hkind & Hp). f_equal.
        apply Encode_spec. by repeat split.
    + split.
      * intros [= H]. apply Encode_None in H. by split.
      * intros [_ H]. f_equal. by apply Encode_None.
Qed.

(** A device identifier in UUID form never gets a token from
    GenerateSASToken. *)
Example sas_token_of_uuid_fails :
  GenerateSASToken {| signingKey := Some Samples.accountKey |} true
    1672531200 1672531200 (OrganizationID Samples.registration)
    Samples.deviceID
  = Returns None.
Proof. reflexivity. Qed.

Example sas_token_of_user_nkey :
  exists token,
    GenerateSASToken {| signingKey := Some Samples.accountKey |} true
      1672531200 1672531201 "orgA" Samples.userNkey
    = Returns (Some token)
    /\ Jwt.Expires (Jwt.payload token) = 1672574400
    /\ Jwt.NotBefore (Jwt.payload token) = 1672531201.
Proof. eexists. repeat split; reflexivity. Qed.

End ManagementHandlers.

(** ** ingestHandler *)

Section IngestHandler.
Import Ingestion.

Lemma validateDataPoint_nil dp :
  validateDataPoint dp = []
  <-> OrganizationID dp <> "" /\ DeviceID dp <> "" /\ SensorName dp <> ""
      /\ ~ Qeq (Value dp) (float_of_Z 0) /\ Timestamp dp <> 0.
Proof.
  unfold validateDataPoint.
  rewrite !failing_nil, !required_string_spec.
  unfold Validator.required_float, Validator.required_int.
  rewrite !negb_true_iff, Z.eqb_neq, <- float_is_zero_spec,
    not_true_iff_false.
  unfold Validator.failing. simpl. tauto.
Qed.

(** X22.  ingestHandler answers 200 exactly when the request is a POST whose
    body decodes to a reading with non-empty identifiers, a value and a
    timestamp other than zero, and the publish succeeds; it then publishes
    that one reading on data.<organization>.<device>.<sensor>.  With any
    other answer nothing is published. *)
Theorem X22_ingest_succeeds_iff publish_ok js r :
  (status (snd (ingestHandler publish_ok js r)) = StatusOK
   <-> Method r = "POST" /\ publish_ok = true
       /\ exists dp,
            Payload r = Some dp
            /\ OrganizationID dp <> "" /\ DeviceID dp <> ""
            /\ SensorName dp <> ""
            /\ ~ Qeq (Value dp) (float_of_Z 0) /\ Timestamp dp <> 0)
  /\ (status (snd (ingestHandler publish_ok js r)) = StatusOK ->
      exists dp,
        Payload r = Some dp
        /\ fst (ingestHandler publish_ok js r)
           = js ++ [("data." +:+ OrganizationID dp +:+ "." +:+ DeviceID dp
                     +:+ "." +:+ SensorName dp, dp)])
  /\ (status (snd (ingestHandler publish_ok js r)) <> StatusOK ->
      fst (ingestHandler publish_ok js r) = js).
Proof.
  unfold ingestHandler.
  destruct (String.eqb_spec (Method r) "POST") as [Hm|Hm]; simpl.
  - destruct (Payload r) as [dp|]; simpl.
    + destruct (validateDataPoint dp) as [|f fs] eqn:Hv; simpl.
      * apply validateDataPoint_nil in Hv.
        destruct publish_ok; simpl.
        -- split; [|split]; [|by exists dp|done].
           split; [|done]. intros _. split; [done|]. split; [done|].
           by exists dp.
        -- split; [|split]; [|done|done].
           split; [done|]. by intros (_ & ? & _).
      * split; [|split]; [|done|done].
        split; [done|]. intros (_ & _ & dp' & [= <-] & Hfields).
        apply validateDataPoint_nil in Hfields. congruence.
    + split; [|split]; [|done|done].
      split; [done|]. by intros (_ & _ & dp' & ? & _).
  - split; [|split]; [|done|done].
    split; [done|]. by intros (? & _).
Qed.

End IngestHandler.

(** ** The data persistence service *)

Section PersistenceService.
Import Analysis Engine Sink.

Lemma sink_consume_cons written m msgs :
  Sink.consume written (m :: msgs)
  = (fst (Sink.consume (fst (Sink.processMessage written m)) msgs),
     snd (Sink.processMessage written m)
     :: snd (Sink.consume (fst (Sink.processMessage written m)) msgs)).
Proof.
  simpl. destruct (Sink.processMessage written m) as [w1 a]. simpl.
  by destruct (Sink.consume w1 msgs).
Qed.

(** X23.  The persistence service hands one point to the write API for every
    message whose payload decodes, in the order of the messages, and
    acknowledges it; a message whose payload does not decode writes nothing
    and is negatively acknowledged.  Each point has the sensor name as
    measurement, the three identifiers as tags, the value as its field and
    the reading's timestamp as time. *)
Theorem X23_one_point_per_decodable_message msgs : forall written,
  fst (Sink.consume written msgs)
  = written ++ map point_of (omap Data msgs)
  /\ snd (Sink.consume written msgs) = map reply_for msgs.
Proof.
  induction msgs as [|m msgs IH]; intros written.
  - simpl. by rewrite app_nil_r.
  - rewrite sink_consume_cons. simpl fst. simpl snd.
    destruct (IH (fst (Sink.processMessage written m))) as [-> ->].
    unfold Sink.processMessage, reply_for. simpl omap.
    destruct (Data m) as [dp|] eqn:Hm; simpl; rewrite ?Hm;
      (split; [|done]); [|done].
    by rewrite <- app_assoc.
Qed.

Lemma connectInflux_spec fuel : forall i health url token c slept,
  (0 < fuel)%nat ->
  exists n s,
    connectInflux fuel i health url token c slept
    = (Some {| serverURL := url; authToken := token |}, n, s)
    /\ (i < n <= i + fuel)%nat
    /\ (forall j, (i <= j < n - 1)%nat -> health j = false)
    /\ (health (n - 1)%nat = true ->
        s = slept + 5 * Z.of_nat (n - 1 - i))
    /\ (health (n - 1)%nat = false ->
        n = (i + fuel)%nat /\ s = slept + 5 * Z.of_nat fuel).
Proof.
  induction fuel as [|fuel IH]; intros i health url token c slept Hfuel;
    [lia|].
  simpl. destruct (health i) eqn:Hi.
  - exists (S i), slept. split; [done|]. split; [lia|].
    replace (S i - 1)%nat with i by lia.
    split; [intros j Hj; lia|]. split; [intros _; lia|]. congruence.
  - destruct fuel as [|fuel].
    + simpl. exists (S i), (slept + 5). split; [done|]. split; [lia|].
      replace (S i - 1)%nat with i by lia.
      split; [intros j Hj; lia|]. split; [congruence|]. intros _. lia.
    + destruct (IH (S i) health url token
                  (Some {| serverURL := url; authToken := token |})
                  (slept + 5) ltac:(lia))
        as (n & s & Heq & Hn & Hfail & Hgood & Hbad).
      exists n, s. split; [done|]. split; [lia|]. split.
      * intros j Hj. destruct (Nat.eq_dec j i) as [->|]; [done|].
        apply Hfail. lia.
      * split.
        -- intros Hh. rewrite (Hgood Hh). lia.
        -- intros Hh. destruct (Hbad Hh) as [-> ->]. lia.
Qed.

(** X24.  Startup of the persistence service never stops for InfluxDB: with
    the broker connected and the subscription made it reaches the fetch loop
    whatever the health checks answer.  It makes between one and ten
    attempts, stops at the first health check that succeeds, sleeps five
    seconds after each failed one, and after ten failures goes on with the
    client that failed them. *)
Theorem X24_startup_never_stops_for_influx
  url token health addstream_ok streams :
  exists n s,
    Sink.main true true url token health addstream_ok true streams
    = Listening {| serverURL := url; authToken := token |} n s
        (Persistence.declareStream addstream_ok streams)
    /\ (1 <= n <= 10)%nat
    /\ (forall j, (j < n - 1)%nat -> health j = false)
    /\ (health (n - 1)%nat = true -> s = 5 * Z.of_nat (n - 1))
    /\ (health (n - 1)%nat = false -> n = 10%nat /\ s = 50).
Proof.
  destruct (connectInflux_spec 10 0 health url token None 0 ltac:(lia))
    as (n & s & Heq & Hn & Hfail & Hgood & Hbad).
  exists n, s. unfold Sink.main. rewrite Heq. simpl.
  split; [done|]. split; [lia|]. split.
  - intros j Hj. apply Hfail. lia.
  - split.
    + intros Hh. rewrite (Hgood Hh). f_equal. lia.
    + intros Hh. destruct (Hbad Hh) as [-> ->]. done.
Qed.

End PersistenceService.

(** ** The notification service *)

Section NotificationService.
Import Analysis Detector Engine Notification.

Lemma notification_subject_matches dp :
  Nats.subject_matches subscription (notificationSubject dp) = true.
Proof.
  unfold Nats.subject_matches, subscription, notificationSubject.
  change ("notifications." +:+ ?x) with ("notifications" +:+ "." +:+ x).
  rewrite !tokens_app.
  change (Nats.tokens "notifications.>") with ["notifications"; ">"].
  change (Nats.tokens "notifications") with ["notifications"].
  pose proof (tokens_nonempty (OrganizationID dp)) as Hne.
  destruct (Nats.tokens (OrganizationID dp)) as [|t ts]; [done|].
  reflexivity.
Qed.

Lemma deliver_all_snoc payloads : forall sent,
  deliver_all sent (map Some payloads)
  = sent ++ map TriggerOrganizationID payloads.
Proof.
  unfold deliver_all.
  induction payloads as [|t payloads IH]; intros sent; simpl.
  - by rewrite app_nil_r.
  - rewrite IH. by rewrite <- app_assoc.
Qed.

(** X25.  Every alert the analysis engine publishes, in any run and whatever
    the environment, is on a subject the subscription notifications.> of the
    notification service matches; delivered to processNotification, the
    alerts produce one email each, addressed to the organization of the
    alert, in the order of publication. *)
Theorem X25_alerts_reach_the_notification_service fetches :
  Forall (fun a => Nats.subject_matches subscription (fst a) = true)
    (js (fst (loop start fetches)))
  /\ deliver_all [] (map (fun a => Some (snd a))
                       (js (fst (loop start fetches))))
     = map (fun a => TriggerOrganizationID (snd a))
         (js (fst (loop start fetches))).
Proof.
  split.
  - rewrite loop_consume.
    apply (consume_keeps
             (fun w => Forall (fun a => Nats.subject_matches subscription
                                          (fst a) = true) (js w))
             (fun _ => True)); [done| |apply Forall_True|constructor].
    intros e w m _ Hw.
    destruct (step_published_breach e w m) as [->|(dp & _ & _ & ->)];
      [done|].
    apply Forall_app. split; [done|]. constructor; [|done].
    apply notification_subject_matches.
  - rewrite <- (map_map snd Some), deliver_all_snoc. simpl.
    by rewrite map_map.
Qed.

End NotificationService.
